(** * S3Tools: a shallow embedding of [src/S3Tools.js]

    The JavaScript class [S3Tools] wraps an S3 client ([this.cli]) and offers
    [getObject], [putJsonObject], [_formatGetObjectResponse] and
    [emptyS3Directory].  Promises are modelled by the way they settle
    ([Outcome]); the client is an interface over an abstract service state,
    and every remote call is appended to a call log so that "no remote call
    is made" and "exactly n calls" can be stated. *)

From Stdlib Require Import String List ZArith Bool Lia.
From Stdlib Require Import Strings.Byte.
Import ListNotations.
Open Scope string_scope.
Open Scope list_scope.
Set Warnings "-register-all".

(** ** JavaScript values *)

(** The fragment of JavaScript values the class can observe with [typeof],
    [!v], [Buffer.isBuffer], [indexOf] and property access.  Numbers are
    integer valued here; a [JFunction] is opaque. *)
Inductive jsval : Type :=
| JUndefined
| JNull
| JBool (b : bool)
| JNum (z : Z)
| JString (s : string)
| JBuffer (bytes : list byte)
| JArray (items : list jsval)
| JObject (fields : list (string * jsval))
| JFunction (name : string).

(** [typeof v] *)
Definition typeof (v : jsval) : string :=
  match v with
  | JUndefined => "undefined"
  | JNull => "object"
  | JBool _ => "boolean"
  | JNum _ => "number"
  | JString _ => "string"
  | JBuffer _ | JArray _ | JObject _ => "object"
  | JFunction _ => "function"
  end.

(** Truthiness, as tested by [!v] and [if (v)]. *)
Definition truthy (v : jsval) : bool :=
  match v with
  | JUndefined | JNull => false
  | JBool b => b
  | JNum z => negb (Z.eqb z 0)
  | JString s => negb (String.eqb s EmptyString)
  | JBuffer _ | JArray _ | JObject _ | JFunction _ => true
  end.

(** [Buffer.isBuffer(v)] *)
Definition isBuffer (v : jsval) : bool :=
  match v with JBuffer _ => true | _ => false end.

(** [v === s] for a string literal [s]. *)
Definition strict_eq_string (v : jsval) (s : string) : bool :=
  match v with JString t => String.eqb t s | _ => false end.

(** [arr.indexOf(v)] on an array of string literals (strict equality),
    counted from [i]; [-1] when absent. *)
Fixpoint indexOf_from (i : Z) (arr : list string) (v : jsval) : Z :=
  match arr with
  | [] => (-1)%Z
  | s :: rest => if strict_eq_string v s then i else indexOf_from (i + 1)%Z rest v
  end.

Definition indexOf (arr : list string) (v : jsval) : Z := indexOf_from 0%Z arr v.

(** A default parameter value: used when the argument is [undefined]
    (or omitted). *)
Definition default_param (arg dflt : jsval) : jsval :=
  match arg with JUndefined => dflt | _ => arg end.

(** Property lookup on the fields of an object: [obj.name], [undefined]
    when the property is absent. *)
Fixpoint get_prop (fields : list (string * jsval)) (name : string) : jsval :=
  match fields with
  | [] => JUndefined
  | (k, v) :: rest => if String.eqb k name then v else get_prop rest name
  end.

(** ** Errors and promise outcomes *)

(** The error attached to a failed client call; [retryable] is the flag the
    class reads as [err.retryable]. *)
Record AwsError : Type := mkAwsError { retryable : bool; code : string }.

Inductive JsError : Type :=
| Error (msg : string)            (* new Error(msg) *)
| TypeError (msg : string)        (* thrown by the runtime *)
| SyntaxError                     (* thrown by JSON.parse *)
| ZlibError                       (* passed by zlib.gunzip to its callback *)
| ClientError (e : AwsError).     (* passed by the client to its callback *)

(** How a promise ends.  [Unsettled None] is a promise still pending;
    [Unsettled (Some e)] is a promise that stays pending because [e] was
    thrown inside an asynchronous callback, outside the promise executor,
    where neither [resolve] nor [reject] is reached. *)
Inductive Outcome : Type :=
| Resolved (v : jsval)
| Rejected (e : JsError)
| Unsettled (uncaught : option JsError).

(** ** Constants of the module *)

Definition BAD_PARAM : string := "S3_TOOLS_BAD_PARAM".
Definition GET_OBJECT_RETURN_TYPE_ALLOWED : list string :=
  ["string"; "buffer"; "object"; "all"].
Definition FILE_NOT_EXIST : string := "FILE_NOT_FOUND".

(** ** The runtime: [JSON], [zlib] and [Buffer] *)

(** The built-ins the class calls.  They belong to the platform, so they are
    an interface here; properties of them appear as hypotheses of the
    theorems that need them. *)
Class Runtime : Type := {
  (** [JSON.parse(text)]; [None] when it throws a [SyntaxError]. *)
  JSON_parse : string -> option jsval;
  (** [JSON.stringify(value)] for a value whose [typeof] is ["object"], when
      it returns.  The values on which it throws (a cyclic object, a BigInt
      inside, a [toJSON] that throws) are not modelled: what is proved of
      [putJsonObject] is proved of the calls in which line 73 returns. *)
  JSON_stringify : jsval -> string;
  (** what [zlib.gunzip] hands to its callback; [None] is an error. *)
  gunzip : list byte -> option (list byte);
  (** [buffer.toString()] *)
  Buffer_toString : list byte -> string;
  (** [Buffer.from(text)] *)
  Buffer_from : string -> list byte;
  (** [v.toString()] for numbers, arrays, objects and functions. *)
  other_toString : jsval -> string
}.

(** ** The client *)

Record GetParam : Type := mkGetParam { gBucket : jsval; gKey : jsval }.
Record PutParam : Type :=
  mkPutParam { pBucket : jsval; pKey : jsval; pBody : jsval; pContentType : string }.
Record ListParam : Type := mkListParam { lBucket : jsval; lPrefix : jsval }.
Record ObjectIdentifier : Type := mkObjectIdentifier { Key : string }.
Record DeleteParam : Type :=
  mkDeleteParam { dBucket : jsval; dObjects : list ObjectIdentifier }.

(** One entry of [listedObjects.Contents]. *)
Record Content : Type := mkContent { cKey : string; cSize : Z }.
Record ListOutput : Type :=
  mkListOutput { Contents : list Content; IsTruncated : bool }.

(** [this.cli]: the four S3 operations over a service state [W].  A call
    returns the new service state and either the error or the data that the
    SDK passes to the callback (or the promise). *)
Record Client (W : Type) : Type := mkClient {
  cli_getObject : GetParam -> W -> W * (AwsError + list (string * jsval));
  cli_putObject : PutParam -> W -> W * (AwsError + jsval);
  cli_listObjectsV2 : ListParam -> W -> W * (AwsError + ListOutput);
  cli_deleteObjects : DeleteParam -> W -> W * (AwsError + jsval)
}.
Arguments cli_getObject {W} _ _ _.
Arguments cli_putObject {W} _ _ _.
Arguments cli_listObjectsV2 {W} _ _ _.
Arguments cli_deleteObjects {W} _ _ _.

(** A remote call, as recorded in the log. *)
Inductive Call : Type :=
| CallGet (p : GetParam)
| CallPut (p : PutParam)
| CallList (p : ListParam)
| CallDelete (p : DeleteParam).

(** The world a method runs in: the service state and the remote calls made
    so far, oldest first. *)
Record World (W : Type) : Type := mkWorld { service : W; calls : list Call }.
Arguments mkWorld {W} _ _.
Arguments service {W} _.
Arguments calls {W} _.

Definition is_list_call (c : Call) : bool :=
  match c with CallList _ => true | _ => false end.
Definition is_delete_call (c : Call) : bool :=
  match c with CallDelete _ => true | _ => false end.
Definition is_get_call (c : Call) : bool :=
  match c with CallGet _ => true | _ => false end.
Definition is_put_call (c : Call) : bool :=
  match c with CallPut _ => true | _ => false end.

Definition count_calls (f : Call -> bool) (l : list Call) : nat :=
  length (filter f l).

(** ** The class *)

(** [constructor(cli, opt = {})]: [this.retryMax = opt.retryMax || 5].
    [None] is an absent [opt.retryMax]; [0] is falsy as well. *)
Definition constructor_retryMax (opt_retryMax : option nat) : nat :=
  match opt_retryMax with
  | Some (S n) => S n
  | Some O | None => 5
  end.

Section S3Tools.

Context {RT : Runtime}.
Context {W : Type}.
Variable cli : Client W.
Variable retryMax : nat.

(** *** Remote calls, logged *)

(** A client operation run in a world: the service state is advanced and the
    call is appended to the log. *)
Definition logged {A : Type} (c : Call) (operation : W -> W * (AwsError + A))
    (w : World W) : World W * (AwsError + A) :=
  let (s, r) := operation (service w) in
  (mkWorld s (calls w ++ [c]), r).

Definition remote_get (p : GetParam) :=
  logged (CallGet p) (cli_getObject cli p).

Definition remote_put (p : PutParam) :=
  logged (CallPut p) (cli_putObject cli p).

Definition remote_list (p : ListParam) :=
  logged (CallList p) (cli_listObjectsV2 cli p).

Definition remote_delete (p : DeleteParam) :=
  logged (CallDelete p) (cli_deleteObjects cli p).

(** *** [utils.retry] *)

(** Modelled from the spec: [utils.retry] of [./utils], which is not part of
    the sources at hand.  Section 4.1 of the specification: the operation is
    attempted; a failure that is not retryable is propagated at once; a
    retryable one is retried, up to [maxAttempts] attempts in total, the
    first included; when the attempts are exhausted the error of the last
    attempt is surfaced.  The delay between two attempts is not modelled.
    [remaining] is the number of attempts left after the current one; the
    specification leaves [maxAttempts = 0] undefined, and one attempt is made
    then. *)
Fixpoint retry_attempts {A : Type} (remaining : nat)
    (operation : World W -> World W * (AwsError + A)) (w : World W)
  : World W * (AwsError + A) :=
  let (w1, r) := operation w in
  match r with
  | inr data => (w1, inr data)
  | inl err =>
      if retryable err then
        match remaining with
        | O => (w1, inl err)
        | S k => retry_attempts k operation w1
        end
      else (w1, inl err)
  end.

Definition utils_retry {A : Type}
    (operation : World W -> World W * (AwsError + A)) (maxAttempts : nat)
  : World W -> World W * (AwsError + A) :=
  retry_attempts (maxAttempts - 1) operation.

(** *** [_formatGetObjectResponse] *)

(** [v.toString()]: a [TypeError] on [undefined] and [null]. *)
Definition toString_method (v : jsval) : JsError + string :=
  match v with
  | JUndefined =>
      inl (TypeError "Cannot read properties of undefined (reading 'toString')")
  | JNull =>
      inl (TypeError "Cannot read properties of null (reading 'toString')")
  | JString s => inr s
  | JBool true => inr "true"
  | JBool false => inr "false"
  | JBuffer b => inr (Buffer_toString b)
  | other => inr (other_toString other)
  end.

(** [zlib.gunzip(input, callback)] called inside a promise executor.  A
    buffer or a string is inflated and the callback runs later with the error
    or the output; [on_data] is what the callback does with the output.  With
    [undefined] or [null] nothing is fed to the inflater, which hands the
    callback its error for a stream that ends too early.  Any other input is
    refused with a [TypeError]; the promise is rejected with it. *)
Definition zlib_gunzip (input : jsval) (on_data : list byte -> Outcome) : Outcome :=
  match input with
  | JBuffer b =>
      match gunzip b with
      | None => Rejected ZlibError
      | Some out => on_data out
      end
  | JString s =>
      match gunzip (Buffer_from s) with
      | None => Rejected ZlibError
      | Some out => on_data out
      end
  | JUndefined | JNull => Rejected ZlibError
  | _ => Rejected (TypeError "ERR_INVALID_ARG_TYPE")
  end.

(** [_formatGetObjectResponse(data, returnType, gzip)].  Without [gzip] the
    work is done inside the promise executor, where a throw rejects the
    promise.  With [gzip] it is done inside the callback of [zlib.gunzip]:
    there a throw of [JSON.parse] escapes and the promise is never settled. *)
Definition _formatGetObjectResponse
    (data : list (string * jsval)) (returnType gzip : jsval) : Outcome :=
  let Body := get_prop data "Body" in
  if strict_eq_string returnType "buffer" then
    if negb (truthy gzip) then Resolved Body
    else zlib_gunzip Body (fun out => Resolved (JBuffer out))
  else if strict_eq_string returnType "string" then
    if negb (truthy gzip) then
      match toString_method Body with
      | inl e => Rejected e
      | inr text => Resolved (JString text)
      end
    else zlib_gunzip Body (fun out => Resolved (JString (Buffer_toString out)))
  else if strict_eq_string returnType "object" then
    if negb (truthy gzip) then
      match toString_method Body with
      | inl e => Rejected e
      | inr text =>
          match JSON_parse text with
          | None => Rejected SyntaxError
          | Some v => Resolved v
          end
      end
    else
      zlib_gunzip Body (fun out =>
        match JSON_parse (Buffer_toString out) with
        | None => Unsettled (Some SyntaxError)
        | Some v => Resolved v
        end)
  else Resolved (JObject data).

(** *** [getObject] *)

Definition getObject (bucket key returnType_arg gzip_arg : jsval) (w : World W)
  : World W * Outcome :=
  let returnType := default_param returnType_arg (JString "object") in
  let gzip := default_param gzip_arg (JBool false) in
  if negb (String.eqb (typeof bucket) "string")
     || negb (String.eqb (typeof key) "string")
     || Z.eqb (indexOf GET_OBJECT_RETURN_TYPE_ALLOWED returnType) (-1)
     || negb (String.eqb (typeof gzip) "boolean")
  then (w, Rejected (Error (BAD_PARAM ++ "_GetObject")%string))
  else
    let param := mkGetParam bucket key in
    let (w1, r) := remote_get param w in
    match r with
    | inl err =>
        if retryable err then
          let (w2, r2) := utils_retry (remote_get param) retryMax w1 in
          match r2 with
          | inr data => (w2, _formatGetObjectResponse data returnType gzip)
          | inl err2 => (w2, Rejected (ClientError err2))
          end
        else (w1, Rejected (ClientError err))
    | inr data =>
        if negb (truthy (get_prop data "Body"))
           || negb (isBuffer (get_prop data "Body"))
        then (w1, Rejected (Error FILE_NOT_EXIST))
        else (w1, _formatGetObjectResponse data returnType gzip)
    end.

(** *** [putJsonObject] *)

Definition putJsonObject (bucket key json : jsval) (w : World W)
  : World W * Outcome :=
  if negb (String.eqb (typeof bucket) "string")
     || negb (String.eqb (typeof key) "string")
     || negb (String.eqb (typeof json) "object")
  then (w, Rejected (Error (BAD_PARAM ++ "_PutObject")%string))
  else
    let param :=
      mkPutParam bucket key (JString (JSON_stringify json)) "application/json" in
    let (w1, r) := remote_put param w in
    match r with
    | inl err =>
        if retryable err then
          let (w2, r2) := utils_retry (remote_put param) retryMax w1 in
          match r2 with
          | inr response => (w2, Resolved response)
          | inl err2 => (w2, Rejected (ClientError err2))
          end
        else (w1, Rejected (ClientError err))
    | inr data => (w1, Resolved data)
    end.

(** *** [emptyS3Directory] *)

(** [deleteParams], once [forEach] has pushed [{ Key }] for every listed
    object. *)
Definition deleteParams_of (bucket : jsval) (listedObjects : ListOutput)
  : DeleteParam :=
  mkDeleteParam bucket
    (map (fun c => mkObjectIdentifier (cKey c)) (Contents listedObjects)).

(** The run of one invocation of [emptyS3Directory] and of the invocations
    it starts.  [settled] is how the promise of THIS invocation ends;
    [final] is the world once the invocations it started have run as far as
    the fuel allows, and [quiescent] says whether they have all finished;
    [self_calls] counts the invocations of [emptyS3Directory] started by
    itself, the one that the fuel does not let run included. *)
Record EmptyRun : Type := mkEmptyRun {
  settled : Outcome;
  final : World W;
  quiescent : bool;
  self_calls : nat
}.

Definition finished (w : World W) (o : Outcome) : EmptyRun :=
  mkEmptyRun o w true 0.

Definition BIND_NOT_A_FUNCTION : string :=
  "this.emptyS3Directory(...).bind is not a function".

(** [async emptyS3Directory(bucket, dir)].  The method calls itself on a
    truncated page: one unit of [fuel] per invocation.  In
    [await this.emptyS3Directory(bucket, dir).bind(this)] the inner
    invocation is started first and returns a promise; a promise has no
    [bind], so the call of [.bind] throws a [TypeError] and the outer promise
    is rejected, while the inner invocation goes on by itself.  Its effects
    are accounted for in [final], on the assumption that the process keeps
    running after the rejection. *)
Fixpoint emptyS3Directory (fuel : nat) (bucket dir : jsval) (w : World W)
  : EmptyRun :=
  match fuel with
  | O => mkEmptyRun (Unsettled None) w false 0
  | S fuel' =>
      let listParams := mkListParam bucket dir in
      let (w1, listed) := remote_list listParams w in
      match listed with
      | inl err => finished w1 (Rejected (ClientError err))
      | inr listedObjects =>
          if Nat.eqb (length (Contents listedObjects)) 0
          then finished w1 (Resolved JUndefined)
          else
            let deleteParams := deleteParams_of bucket listedObjects in
            let (w2, deleted) := remote_delete deleteParams w1 in
            match deleted with
            | inl err => finished w2 (Rejected (ClientError err))
            | inr _ =>
                if IsTruncated listedObjects then
                  let inner := emptyS3Directory fuel' bucket dir w2 in
                  mkEmptyRun (Rejected (TypeError BIND_NOT_A_FUNCTION))
                             (final inner) (quiescent inner)
                             (S (self_calls inner))
                else finished w2 (Resolved JUndefined)
            end
      end
  end.

End S3Tools.

Arguments settled {W} _.
Arguments final {W} _.
Arguments quiescent {W} _.
Arguments self_calls {W} _.

(** ** Vocabulary of the statements *)

Section Vocabulary.

Context {W : Type}.

(** The service state after [k] calls of [operation] in a row. *)
Fixpoint state_after {A : Type} (operation : W -> W * (AwsError + A))
    (k : nat) (s : W) : W :=
  match k with
  | O => s
  | S k' => state_after operation k' (fst (operation s))
  end.

(** What attempt number [k + 1] of [operation] answers, from state [s]. *)
Definition attempt_result {A : Type} (operation : W -> W * (AwsError + A))
    (k : nat) (s : W) : AwsError + A :=
  snd (operation (state_after operation k s)).

(** Every one of the first [n] attempts fails with a retryable error. *)
Definition all_attempts_retryable {A : Type}
    (operation : W -> W * (AwsError + A)) (n : nat) (s : W) : Prop :=
  forall k, k < n ->
    exists e, attempt_result operation k s = inl e /\ retryable e = true.

(** [returnType] is one of the four allowed strings. *)
Definition allowed_return_type (v : jsval) : Prop :=
  exists s, v = JString s /\ In s GET_OBJECT_RETURN_TYPE_ALLOWED.

Variable cli : Client W.

(** [Paged bucket dir k s s']: from service state [s] the listing of
    [(bucket, dir)] spans exactly [k] pages, each one non-empty and reported
    truncated except the last, every batched delete of a page succeeds, and
    [s'] is the service state after the last delete. *)
Inductive Paged (bucket dir : jsval) : nat -> W -> W -> Prop :=
| Paged_last : forall s s1 s2 page ack,
    cli_listObjectsV2 cli (mkListParam bucket dir) s = (s1, inr page) ->
    Contents page <> [] ->
    IsTruncated page = false ->
    cli_deleteObjects cli (deleteParams_of bucket page) s1 = (s2, inr ack) ->
    Paged bucket dir 1 s s2
| Paged_more : forall k s s1 s2 s' page ack,
    cli_listObjectsV2 cli (mkListParam bucket dir) s = (s1, inr page) ->
    Contents page <> [] ->
    IsTruncated page = true ->
    cli_deleteObjects cli (deleteParams_of bucket page) s1 = (s2, inr ack) ->
    Paged bucket dir k s2 s' ->
    Paged bucket dir (S k) s s'.

End Vocabulary.

(** A response whose [Body] is [body]; [envelope] is the rest of it. *)
Definition response (body : jsval) (envelope : list (string * jsval))
  : list (string * jsval) :=
  ("Body", body) :: envelope.

(** ** Test doubles *)

(** An operation the double does not serve. *)
Definition unsupported {W A : Type} (s : W) : W * (AwsError + A) :=
  (s, inl (mkAwsError false "NotImplemented")).

(** A client whose [getObject] answers from a script, one entry per call. *)
Definition scripted_get_client
  : Client (list (AwsError + list (string * jsval))) :=
  mkClient _
    (fun _ script =>
       match script with
       | [] => (script, inl (mkAwsError false "ScriptExhausted"))
       | answer :: rest => (rest, answer)
       end)
    (fun _ => unsupported)
    (fun _ => unsupported)
    (fun _ => unsupported).

(** A client whose [putObject] answers from a script. *)
Definition scripted_put_client : Client (list (AwsError + jsval)) :=
  mkClient _
    (fun _ => unsupported)
    (fun _ script =>
       match script with
       | [] => (script, inl (mkAwsError false "ScriptExhausted"))
       | answer :: rest => (rest, answer)
       end)
    (fun _ => unsupported)
    (fun _ => unsupported).

(** A prefix of [n] objects listed one per page: the state is the number of
    objects left. *)
Definition countdown_client : Client nat :=
  mkClient _
    (fun _ => unsupported)
    (fun _ => unsupported)
    (fun _ n =>
       match n with
       | O => (n, inr (mkListOutput [] false))
       | S m => (n, inr (mkListOutput [mkContent "k" 0] (Nat.ltb 0 m)))
       end)
    (fun _ n => (Nat.pred n, inr (JObject []))).

(** An in-memory bucket store that lists at most [maxKeys] objects per
    page. *)
Record MemObject : Type :=
  mkMemObject { oBucket : string; oKey : string; oBody : list byte }.

Definition under (bucket dir : string) (o : MemObject) : bool :=
  String.eqb (oBucket o) bucket && String.prefix dir (oKey o).

Definition mem_client (maxKeys : nat) : Client (list MemObject) :=
  mkClient _
    (fun p store =>
       match gBucket p, gKey p with
       | JString b, JString k =>
           match find (fun o => String.eqb (oBucket o) b && String.eqb (oKey o) k) store with
           | Some o => (store, inr [("Body", JBuffer (oBody o))])
           | None => (store, inl (mkAwsError false "NoSuchKey"))
           end
       | _, _ => (store, inl (mkAwsError false "InvalidParameterType"))
       end)
    (fun p store =>
       match pBucket p, pKey p, pBody p with
       | JString b, JString k, JString text =>
           (mkMemObject b k (list_byte_of_string text)
              :: filter (fun o => negb (String.eqb (oBucket o) b && String.eqb (oKey o) k)) store,
            inr (JObject []))
       | _, _, _ => (store, inl (mkAwsError false "InvalidParameterType"))
       end)
    (fun p store =>
       match lBucket p, lPrefix p with
       | JString b, JString dir =>
           let matching := filter (under b dir) store in
           (store,
            inr (mkListOutput
                   (map (fun o => mkContent (oKey o) (Z.of_nat (length (oBody o))))
                        (firstn maxKeys matching))
                   (Nat.ltb maxKeys (length matching))))
       | _, _ => (store, inl (mkAwsError false "InvalidParameterType"))
       end)
    (fun p store =>
       match dBucket p with
       | JString b =>
           (filter (fun o => negb (String.eqb (oBucket o) b
                                   && existsb (fun id => String.eqb (Key id) (oKey o))
                                              (dObjects p)))
                   store,
            inr (JObject []))
       | _ => (store, inl (mkAwsError false "InvalidParameterType"))
       end).

(** A runtime for running the examples: [JSON] on three documents only, and
    a compression that puts the two gzip magic bytes in front of the data. *)
Definition toy_compress (data : list byte) : list byte := x1f :: x8b :: data.

Definition toy_runtime : Runtime := {|
  JSON_parse := fun text =>
    if String.eqb text "{}" then Some (JObject [])
    else if String.eqb text "[]" then Some (JArray [])
    else if String.eqb text "null" then Some JNull
    else None;
  JSON_stringify := fun v =>
    match v with
    | JArray [] => "[]"
    | JNull => "null"
    | _ => "{}"
    end;
  gunzip := fun data =>
    match data with
    | x1f :: x8b :: rest => Some rest
    | _ => None
    end;
  Buffer_toString := string_of_list_byte;
  Buffer_from := list_byte_of_string;
  other_toString := fun _ => "[object Object]"
|}.

(** A script of three retryable failures. *)
Definition three_failures {A : Type} : list (AwsError + A) :=
  [inl (mkAwsError true "first"); inl (mkAwsError true "second");
   inl (mkAwsError true "third")].

(** Five objects under [logs/] in bucket [b], and one elsewhere. *)
Definition five_logs : list MemObject :=
  [ mkMemObject "b" "logs/1" [x61];
    mkMemObject "b" "logs/2" [x62];
    mkMemObject "b" "other" [x63];
    mkMemObject "b" "logs/3" [];
    mkMemObject "b" "logs/4" [x64];
    mkMemObject "b" "logs/5" [x65] ].

(** ** Vocabulary of the further properties *)

(** An outcome whose resolved value is passed through [f]. *)
Definition outcome_map (f : jsval -> jsval) (o : Outcome) : Outcome :=
  match o with
  | Resolved v => Resolved (f v)
  | other => other
  end.

(** The text of a buffer, [buffer.toString()]. *)
Definition text_of_buffer {RT : Runtime} (v : jsval) : jsval :=
  match v with
  | JBuffer b => JString (Buffer_toString b)
  | other => other
  end.

(** The calls [emptyS3Directory(bucket, dir)] may make: the List of
    [(bucket, dir)] and batched Deletes in [bucket]. *)
Definition empties_call (bucket dir : jsval) (c : Call) : Prop :=
  c = CallList (mkListParam bucket dir)
  \/ exists objects, c = CallDelete (mkDeleteParam bucket objects).

(** The objects of a store that are not under [(bucket, dir)]. *)
Definition elsewhere (bucket dir : string) (o : MemObject) : bool :=
  negb (under bucket dir o).

(** What the in-memory store keeps when it is asked to delete [objects]
    in [bucket]. *)
Definition mem_kept (bucket : string) (objects : list ObjectIdentifier)
    (o : MemObject) : bool :=
  negb (String.eqb (oBucket o) bucket
        && existsb (fun id => String.eqb (Key id) (oKey o)) objects).

(** The page the in-memory store answers for [(bucket, dir)]. *)
Definition mem_page_of (maxKeys : nat) (bucket dir : string)
    (store : list MemObject) : ListOutput :=
  mkListOutput
    (map (fun o => mkContent (oKey o) (Z.of_nat (length (oBody o))))
         (firstn maxKeys (filter (under bucket dir) store)))
    (Nat.ltb maxKeys (length (filter (under bucket dir) store))).

(** A client that lists one key and refuses every Delete. *)
Definition read_only_client : Client unit :=
  mkClient _
    (fun _ => unsupported)
    (fun _ => unsupported)
    (fun _ s => (s, inr (mkListOutput [mkContent "k" 1] true)))
    (fun _ s => (s, inl (mkAwsError false "AccessDenied"))).

(** * Properties *)

(** ** Values and validation *)

(** The constructor never leaves a [retryMax] of zero. *)
Lemma constructor_retryMax_positive (opt_retryMax : option nat) :
  1 <= constructor_retryMax opt_retryMax.
Proof. destruct opt_retryMax as [[|n]|]; simpl; lia. Qed.

Example constructor_retryMax_default :
  constructor_retryMax None = 5 /\ constructor_retryMax (Some 0) = 5
  /\ constructor_retryMax (Some 3) = 3.
Proof. repeat split. Qed.

Lemma typeof_string_inv (v : jsval) :
  typeof v = "string" -> exists s, v = JString s.
Proof. destruct v; simpl; intro H; try discriminate H. now exists s. Qed.

Lemma typeof_boolean_inv (v : jsval) :
  typeof v = "boolean" -> exists b, v = JBool b.
Proof. destruct v; simpl; intro H; try discriminate H. now exists b. Qed.

Lemma eqb_typeof_false (v : jsval) (t : string) :
  typeof v <> t -> negb (String.eqb (typeof v) t) = true.
Proof. intro H. apply negb_true_iff. now apply String.eqb_neq. Qed.

Lemma eqb_typeof_true (v : jsval) (t : string) :
  typeof v = t -> negb (String.eqb (typeof v) t) = false.
Proof. intro H. apply negb_false_iff. now apply String.eqb_eq. Qed.

(** [indexOf] answers [-1] exactly on the values that are not one of the
    four allowed strings. *)
Lemma indexOf_allowed (v : jsval) :
  Z.eqb (indexOf GET_OBJECT_RETURN_TYPE_ALLOWED v) (-1) = false
  <-> allowed_return_type v.
Proof.
  unfold allowed_return_type, indexOf, GET_OBJECT_RETURN_TYPE_ALLOWED.
  split.
  - destruct v; simpl; try discriminate.
    destruct (String.eqb_spec s "string") as [->|_];
      [intros _; exists "string"; simpl; auto|].
    destruct (String.eqb_spec s "buffer") as [->|_];
      [intros _; exists "buffer"; simpl; auto|].
    destruct (String.eqb_spec s "object") as [->|_];
      [intros _; exists "object"; simpl; auto|].
    destruct (String.eqb_spec s "all") as [->|_];
      [intros _; exists "all"; simpl; auto 6|].
    cbn. discriminate.
  - intros [s [-> Hin]]. simpl in Hin.
    destruct Hin as [<-|[<-|[<-|[<-|[]]]]]; reflexivity.
Qed.

Lemma indexOf_not_allowed (v : jsval) :
  ~ allowed_return_type v ->
  Z.eqb (indexOf GET_OBJECT_RETURN_TYPE_ALLOWED v) (-1) = true.
Proof.
  intro H.
  destruct (Z.eqb (indexOf GET_OBJECT_RETURN_TYPE_ALLOWED v) (-1)) eqn:E; auto.
  exfalso. apply H. now apply indexOf_allowed.
Qed.

Lemma default_param_given (v d : jsval) :
  v <> JUndefined -> default_param v d = v.
Proof. destruct v; simpl; congruence. Qed.

Section Validation.

Context {RT : Runtime} {W : Type}.
Variable cli : Client W.
Variable retryMax : nat.

(** C3, as amended: [getObject] rejects with the bad-parameter error, and
    leaves the world (service state and call log) untouched, when [bucket]
    or [key] is not a string, or a [returnType] is given that is not one of
    the four allowed strings, or a [gzip] is given that is not a boolean.
    Emptiness of the strings is not examined. *)
Theorem getObject_bad_param_rejected (bucket key returnType gzip : jsval)
    (w : World W) :
  typeof bucket <> "string" \/ typeof key <> "string" \/
  (returnType <> JUndefined /\ ~ allowed_return_type returnType) \/
  (gzip <> JUndefined /\ typeof gzip <> "boolean") ->
  getObject cli retryMax bucket key returnType gzip w
  = (w, Rejected (Error "S3_TOOLS_BAD_PARAM_GetObject")).
Proof.
  intro H. unfold getObject.
  destruct H as [H|[H|[[Hg H]|[Hg H]]]].
  - rewrite (eqb_typeof_false _ _ H). reflexivity.
  - rewrite (eqb_typeof_false _ _ H), !orb_true_r. reflexivity.
  - rewrite (default_param_given _ _ Hg), (indexOf_not_allowed _ H), !orb_true_r.
    reflexivity.
  - rewrite (default_param_given gzip _ Hg), (eqb_typeof_false _ _ H), !orb_true_r.
    reflexivity.
Qed.

(** Conversely, arguments that pass the check always cause a remote Get:
    the validation rejects nothing else. *)
Lemma getObject_valid_calls_get (bucket key returnType gzip : jsval)
    (w : World W) :
  typeof bucket = "string" -> typeof key = "string" ->
  allowed_return_type (default_param returnType (JString "object")) ->
  typeof (default_param gzip (JBool false)) = "boolean" ->
  exists rest,
    calls (fst (getObject cli retryMax bucket key returnType gzip w))
    = calls w ++ CallGet (mkGetParam bucket key) :: rest.
Proof.
  intros Hb Hk Hr Hg. unfold getObject.
  rewrite (eqb_typeof_true _ _ Hb), (eqb_typeof_true _ _ Hk),
    (eqb_typeof_true _ _ Hg).
  apply indexOf_allowed in Hr. rewrite Hr. simpl orb. cbv iota.
  unfold remote_get at 1, logged at 1.
  destruct (cli_getObject cli (mkGetParam bucket key) (service w)) as [s r].
  destruct r as [err|data].
  - destruct (retryable err).
    + destruct (utils_retry _ _ _) as [w2 r2] eqn:E.
      assert (Hlog : exists rest,
                 calls w2 = (calls w ++ [CallGet (mkGetParam bucket key)]) ++ rest).
      { clear - E. unfold utils_retry in E.
        remember (mkWorld s (calls w ++ [CallGet (mkGetParam bucket key)])) as w1.
        replace (calls w ++ [CallGet (mkGetParam bucket key)]) with (calls w1)
          by (subst w1; reflexivity).
        clear Heqw1. revert w1 E.
        induction (retryMax - 1) as [|n IH]; intros w1 E; simpl in E;
          unfold remote_get at 1, logged at 1 in E;
          destruct (cli_getObject cli (mkGetParam bucket key) (service w1)) as [s1 r1];
          destruct r1 as [e1|d1].
        - destruct (retryable e1); inversion E; subst; simpl; eauto.
        - inversion E; subst; simpl; eauto.
        - destruct (retryable e1).
          + apply IH in E. destruct E as [rest E]. simpl in E.
            rewrite E, <- app_assoc. eauto.
          + inversion E; subst; simpl; eauto.
        - inversion E; subst; simpl; eauto. }
      destruct Hlog as [rest Hlog].
      exists rest. destruct r2; simpl; rewrite Hlog, <- app_assoc; reflexivity.
    + exists []. reflexivity.
  - exists []. destruct (_ || _); reflexivity.
Qed.

(** C7, as amended: [putJsonObject] rejects with the bad-parameter error,
    and leaves the world untouched, when [bucket] or [key] is not a string or
    [typeof json] is not ["object"].  Emptiness of the strings is not
    examined. *)
Theorem putJsonObject_bad_param_rejected (bucket key json : jsval)
    (w : World W) :
  typeof bucket <> "string" \/ typeof key <> "string" \/
  typeof json <> "object" ->
  putJsonObject cli retryMax bucket key json w
  = (w, Rejected (Error "S3_TOOLS_BAD_PARAM_PutObject")).
Proof.
  intro H. unfold putJsonObject.
  destruct H as [H|[H|H]]; rewrite (eqb_typeof_false _ _ H), ?orb_true_r;
    reflexivity.
Qed.

(** C9: with [returnType] and [gzip] omitted, [getObject] is the call with
    ["object"] and [false]. *)
Theorem getObject_defaults (bucket key : jsval) (w : World W) :
  getObject cli retryMax bucket key JUndefined JUndefined w
  = getObject cli retryMax bucket key (JString "object") (JBool false) w.
Proof. reflexivity. Qed.

End Validation.

(** ** The response formatter *)

Section Formatter.

Context {RT : Runtime}.

Lemma get_prop_response (body : jsval) (envelope : list (string * jsval)) :
  get_prop (response body envelope) "Body" = body.
Proof. reflexivity. Qed.

(** C6: with ["buffer"] the bytes of the body are returned as they are when
    [gzip] is false, and a compressed body is returned decompressed when
    [gzip] is true: whenever [gunzip] undoes [compress] on [bytes], the bytes
    come back. *)
Theorem format_buffer_identity_roundtrip
    (bytes : list byte) (envelope : list (string * jsval)) :
  _formatGetObjectResponse (response (JBuffer bytes) envelope)
    (JString "buffer") (JBool false)
  = Resolved (JBuffer bytes)
  /\ forall compress : list byte -> list byte,
       gunzip (compress bytes) = Some bytes ->
       _formatGetObjectResponse (response (JBuffer (compress bytes)) envelope)
         (JString "buffer") (JBool true)
       = Resolved (JBuffer bytes).
Proof.
  split; [reflexivity|].
  intros compress Hround.
  unfold _formatGetObjectResponse. simpl. now rewrite Hround.
Qed.

(** Without [gzip], a body that [JSON.parse] refuses rejects the promise
    with the [SyntaxError]. *)
Lemma format_object_plain_parse_failure
    (bytes : list byte) (envelope : list (string * jsval)) :
  JSON_parse (Buffer_toString bytes) = None ->
  _formatGetObjectResponse (response (JBuffer bytes) envelope)
    (JString "object") (JBool false)
  = Rejected SyntaxError.
Proof. intro H. unfold _formatGetObjectResponse. simpl. now rewrite H. Qed.

(** A body that [gunzip] refuses rejects the promise with the error of
    zlib, whatever the return type among the three decoded ones; that error
    is not the one of a parse failure. *)
Lemma format_gunzip_failure
    (bytes : list byte) (envelope : list (string * jsval)) (returnType : string) :
  gunzip bytes = None ->
  In returnType ["buffer"; "string"; "object"] ->
  _formatGetObjectResponse (response (JBuffer bytes) envelope)
    (JString returnType) (JBool true)
  = Rejected ZlibError
  /\ ZlibError <> SyntaxError.
Proof.
  intros H Hin. split; [|discriminate].
  simpl in Hin. destruct Hin as [<-|[<-|[<-|[]]]];
    unfold _formatGetObjectResponse; simpl; now rewrite H.
Qed.

(** A body that parses is answered parsed, compressed or not; when the body
    is what [putJsonObject] sent for [json], and parsing undoes
    [JSON.stringify] on [json], the answer is [json]. *)
Lemma format_object_parses
    (bytes : list byte) (envelope : list (string * jsval)) (v : jsval) :
  JSON_parse (Buffer_toString bytes) = Some v ->
  _formatGetObjectResponse (response (JBuffer bytes) envelope)
    (JString "object") (JBool false)
  = Resolved v
  /\ forall compressed,
       gunzip compressed = Some bytes ->
       _formatGetObjectResponse (response (JBuffer compressed) envelope)
         (JString "object") (JBool true)
       = Resolved v.
Proof.
  intro H. split.
  - unfold _formatGetObjectResponse. simpl. now rewrite H.
  - intros compressed Hz. unfold _formatGetObjectResponse. simpl.
    now rewrite Hz, H.
Qed.

Lemma format_object_roundtrip
    (json : jsval) (envelope : list (string * jsval)) :
  JSON_parse (Buffer_toString (Buffer_from (JSON_stringify json))) = Some json ->
  _formatGetObjectResponse
    (response (JBuffer (Buffer_from (JSON_stringify json))) envelope)
    (JString "object") (JBool false)
  = Resolved json.
Proof. intro H. now apply format_object_parses. Qed.

(** C5, on the code: with ["object"] and [gzip], a body that inflates to a
    text [JSON.parse] refuses does not reject the promise: the throw happens
    inside the callback of [zlib.gunzip] and the promise is left unsettled,
    the [SyntaxError] uncaught. *)
Theorem format_object_gzip_parse_failure_unsettled
    (compressed inflated : list byte) (envelope : list (string * jsval)) :
  gunzip compressed = Some inflated ->
  JSON_parse (Buffer_toString inflated) = None ->
  _formatGetObjectResponse (response (JBuffer compressed) envelope)
    (JString "object") (JBool true)
  = Unsettled (Some SyntaxError)
  /\ forall e, _formatGetObjectResponse (response (JBuffer compressed) envelope)
                 (JString "object") (JBool true) <> Rejected e.
Proof.
  intros Hz Hp.
  assert (E : _formatGetObjectResponse (response (JBuffer compressed) envelope)
                (JString "object") (JBool true) = Unsettled (Some SyntaxError)).
  { unfold _formatGetObjectResponse. simpl. now rewrite Hz, Hp. }
  split; [exact E|]. intros e. rewrite E. discriminate.
Qed.

End Formatter.

(** ** The body check of [getObject] *)

Section BodyCheck.

Context {RT : Runtime} {W : Type}.
Variable cli : Client W.
Variable retryMax : nat.

Lemma getObject_valid_unfold (bucket key returnType gzip : jsval) (w : World W) :
  typeof bucket = "string" -> typeof key = "string" ->
  allowed_return_type returnType -> typeof gzip = "boolean" ->
  getObject cli retryMax bucket key returnType gzip w
  = let param := mkGetParam bucket key in
    let (w1, r) := remote_get cli param w in
    match r with
    | inl err =>
        if retryable err then
          let (w2, r2) := utils_retry (remote_get cli param) retryMax w1 in
          match r2 with
          | inr data => (w2, _formatGetObjectResponse data returnType gzip)
          | inl err2 => (w2, Rejected (ClientError err2))
          end
        else (w1, Rejected (ClientError err))
    | inr data =>
        if negb (truthy (get_prop data "Body"))
           || negb (isBuffer (get_prop data "Body"))
        then (w1, Rejected (Error FILE_NOT_EXIST))
        else (w1, _formatGetObjectResponse data returnType gzip)
    end.
Proof.
  intros Hb Hk Hr Hg. unfold getObject.
  assert (Hrt : default_param returnType (JString "object") = returnType).
  { destruct Hr as [s [-> _]]. reflexivity. }
  assert (Hgz : default_param gzip (JBool false) = gzip).
  { destruct (typeof_boolean_inv _ Hg) as [b ->]. reflexivity. }
  rewrite Hrt, Hgz.
  rewrite (eqb_typeof_true _ _ Hb), (eqb_typeof_true _ _ Hk),
    (eqb_typeof_true _ _ Hg).
  apply indexOf_allowed in Hr. rewrite Hr. reflexivity.
Qed.

(** When the first attempt succeeds, a response without a body, or with a
    body that is falsy or not a buffer, is rejected with [FILE_NOT_FOUND],
    whatever the return type. *)
Lemma getObject_first_attempt_no_body
    (bucket key returnType gzip : jsval) (w : World W) s1 data :
  typeof bucket = "string" -> typeof key = "string" ->
  allowed_return_type returnType -> typeof gzip = "boolean" ->
  cli_getObject cli (mkGetParam bucket key) (service w) = (s1, inr data) ->
  truthy (get_prop data "Body") = false \/ isBuffer (get_prop data "Body") = false ->
  snd (getObject cli retryMax bucket key returnType gzip w)
  = Rejected (Error "FILE_NOT_FOUND").
Proof.
  intros Hb Hk Hr Hg Hget Hbody.
  rewrite getObject_valid_unfold by assumption.
  cbv zeta. unfold remote_get, logged. rewrite Hget.
  destruct Hbody as [H|H]; rewrite H; simpl; rewrite ?orb_true_r; reflexivity.
Qed.

(** C2, on the code: when the first attempt fails with a retryable error and
    the retried attempt succeeds with a response that has no [Body], the
    body check is not made.  With ["all"] the promise is resolved with the
    response, and with no return type at all is it rejected with
    [FILE_NOT_FOUND]. *)
Theorem getObject_retried_no_body_unchecked
    (bucket key : jsval) (w : World W) s1 s2 err data :
  typeof bucket = "string" -> typeof key = "string" ->
  cli_getObject cli (mkGetParam bucket key) (service w) = (s1, inl err) ->
  retryable err = true ->
  cli_getObject cli (mkGetParam bucket key) s1 = (s2, inr data) ->
  get_prop data "Body" = JUndefined ->
  snd (getObject cli retryMax bucket key (JString "all") (JBool false) w)
  = Resolved (JObject data)
  /\ forall returnType gzip,
       snd (getObject cli retryMax bucket key returnType gzip w)
       <> Rejected (Error "FILE_NOT_FOUND").
Proof.
  intros Hb Hk Hget1 Hretry Hget2 Hbody.
  assert (Hrun : utils_retry (remote_get cli (mkGetParam bucket key)) retryMax
                   (mkWorld s1 (calls w ++ [CallGet (mkGetParam bucket key)]))
                 = (mkWorld s2 ((calls w ++ [CallGet (mkGetParam bucket key)])
                                ++ [CallGet (mkGetParam bucket key)]),
                    inr data)).
  { unfold utils_retry. destruct (retryMax - 1); simpl;
      unfold remote_get, logged; simpl; rewrite Hget2; reflexivity. }
  split.
  - rewrite getObject_valid_unfold; try assumption; try reflexivity.
    + cbv zeta. unfold remote_get at 1, logged at 1. rewrite Hget1, Hretry, Hrun.
      reflexivity.
    + exists "all". split; [reflexivity|]. simpl. auto.
  - intros returnType gzip. unfold getObject.
    destruct (_ || _); [simpl; discriminate|].
    unfold remote_get at 1, logged at 1. rewrite Hget1, Hretry, Hrun. simpl.
    unfold _formatGetObjectResponse. rewrite Hbody.
    repeat match goal with
           | |- context [if ?c then _ else _] => destruct c
           end; simpl; discriminate.
Qed.

End BodyCheck.

(** ** Retries *)

Section Retry.

Context {RT : Runtime} {W : Type}.
Variable cli : Client W.

Lemma all_attempts_retryable_first {A : Type}
    (operation : W -> W * (AwsError + A)) (n : nat) (s : W) :
  all_attempts_retryable operation (S n) s ->
  exists e, snd (operation s) = inl e /\ retryable e = true.
Proof. intro H. apply (H 0). lia. Qed.

Lemma all_attempts_retryable_next {A : Type}
    (operation : W -> W * (AwsError + A)) (n : nat) (s : W) :
  all_attempts_retryable operation (S n) s ->
  all_attempts_retryable operation n (fst (operation s)).
Proof. intros H k Hk. apply (H (S k)). lia. Qed.

(** When every attempt fails with a retryable error, [retry_attempts] makes
    all the attempts it is allowed, and answers the error of the last. *)
Lemma retry_attempts_exhausted {A : Type} (c : Call)
    (operation : W -> W * (AwsError + A)) (remaining : nat) :
  forall w : World W,
    all_attempts_retryable operation (S remaining) (service w) ->
    retry_attempts remaining (logged c operation) w
    = (mkWorld (state_after operation (S remaining) (service w))
               (calls w ++ repeat c (S remaining)),
       attempt_result operation remaining (service w)).
Proof.
  induction remaining as [|k IH]; intros w H.
  - destruct (all_attempts_retryable_first _ _ _ H) as [e [He Hr]].
    simpl. unfold logged, attempt_result. simpl.
    destruct (operation (service w)) as [s r]. simpl in *. subst r.
    now rewrite Hr.
  - destruct (all_attempts_retryable_first _ _ _ H) as [e [He Hr]].
    apply all_attempts_retryable_next in H.
    cbn [retry_attempts]. unfold logged at 1.
    destruct (operation (service w)) as [s r] eqn:Eop. simpl in He, H. subst r.
    rewrite Hr, IH by exact H.
    unfold attempt_result. cbn [state_after service calls repeat].
    rewrite Eop. cbn [fst]. rewrite <- app_assoc. reflexivity.
Qed.

(** The first call made by the method itself, followed by [utils.retry] with
    [n] attempts: [n + 1] calls. *)
Lemma first_call_then_retry_exhausted {A : Type} (c : Call)
    (operation : W -> W * (AwsError + A)) (n : nat) (w : World W) :
  1 <= n ->
  all_attempts_retryable operation (S n) (service w) ->
  exists e e',
    logged c operation w
    = (mkWorld (fst (operation (service w))) (calls w ++ [c]), inl e)
    /\ retryable e = true
    /\ attempt_result operation n (service w) = inl e'
    /\ utils_retry (logged c operation) n
         (mkWorld (fst (operation (service w))) (calls w ++ [c]))
       = (mkWorld (state_after operation (S n) (service w))
                  (calls w ++ repeat c (S n)),
          inl e').
Proof.
  intros Hn H.
  destruct (all_attempts_retryable_first _ _ _ H) as [e [He Hr]].
  destruct (H n) as [e' [He' _]]; [lia|].
  exists e, e'. repeat split; try assumption.
  - unfold logged. destruct (operation (service w)) as [s r].
    simpl in He. now subst r.
  - unfold utils_retry.
    apply all_attempts_retryable_next in H.
    destruct n as [|m]; [lia|]. replace (S m - 1) with m by lia.
    rewrite retry_attempts_exhausted by exact H.
    cbn [service calls]. f_equal.
    + rewrite <- app_assoc. reflexivity.
    + rewrite <- He'. reflexivity.
Qed.

(** C4, as amended: with [retryMax = n >= 1], a Get or a Put whose every
    attempt fails with a retryable error is attempted [n + 1] times, once by
    the method and [n] times by [utils.retry], and the promise is rejected
    with the error of the last attempt, number [n + 1]. *)
Theorem retry_exhausted_calls_and_error (n : nat) (bucket key : jsval)
    (w : World W) :
  1 <= n -> typeof bucket = "string" -> typeof key = "string" ->
  (forall returnType gzip,
     allowed_return_type returnType -> typeof gzip = "boolean" ->
     let get := cli_getObject cli (mkGetParam bucket key) in
     all_attempts_retryable get (S n) (service w) ->
     exists e,
       attempt_result get n (service w) = inl e
       /\ getObject cli n bucket key returnType gzip w
          = (mkWorld (state_after get (S n) (service w))
                     (calls w ++ repeat (CallGet (mkGetParam bucket key)) (S n)),
             Rejected (ClientError e)))
  /\
  (forall json,
     typeof json = "object" ->
     let param :=
       mkPutParam bucket key (JString (JSON_stringify json)) "application/json" in
     let put := cli_putObject cli param in
     all_attempts_retryable put (S n) (service w) ->
     exists e,
       attempt_result put n (service w) = inl e
       /\ putJsonObject cli n bucket key json w
          = (mkWorld (state_after put (S n) (service w))
                     (calls w ++ repeat (CallPut param) (S n)),
             Rejected (ClientError e))).
Proof.
  intros Hn Hb Hk. split.
  - intros returnType gzip Hr Hg get H.
    destruct (first_call_then_retry_exhausted
                (CallGet (mkGetParam bucket key)) get n w Hn H)
      as [e [e' [Hfirst [Hre [Hlast Hretry]]]]].
    exists e'. split; [exact Hlast|].
    rewrite getObject_valid_unfold by assumption.
    cbv zeta. unfold remote_get. fold get. rewrite Hfirst, Hre, Hretry.
    reflexivity.
  - intros json Hj param put H.
    destruct (first_call_then_retry_exhausted (CallPut param) put n w Hn H)
      as [e [e' [Hfirst [Hre [Hlast Hretry]]]]].
    exists e'. split; [exact Hlast|].
    unfold putJsonObject.
    rewrite (eqb_typeof_true _ _ Hb), (eqb_typeof_true _ _ Hk),
      (eqb_typeof_true _ _ Hj).
    cbn [orb]. cbv zeta. unfold remote_put. fold param. fold put.
    rewrite Hfirst, Hre, Hretry. reflexivity.
Qed.

End Retry.

(** ** Emptying a prefix *)

Lemma count_calls_app (f : Call -> bool) (l1 l2 : list Call) :
  count_calls f (l1 ++ l2) = count_calls f l1 + count_calls f l2.
Proof. unfold count_calls. now rewrite filter_app, length_app. Qed.

Section EmptyDirectory.

Context {W : Type}.
Variable cli : Client W.
Variables bucket dir : jsval.

Lemma Paged_positive (k : nat) (s s' : W) :
  Paged cli bucket dir k s s' -> 1 <= k.
Proof. intro H. destruct H; lia. Qed.

Lemma Contents_nonempty (page : ListOutput) :
  Contents page <> [] -> Nat.eqb (length (Contents page)) 0 = false.
Proof. destruct (Contents page); [congruence|reflexivity]. Qed.

(** One invocation on a page that is not empty and whose batch is deleted:
    the two calls it makes, and how it goes on. *)
Lemma emptyS3Directory_page (fuel : nat) (s s1 s2 : W) (log : list Call)
    (page : ListOutput) (ack : jsval) :
  cli_listObjectsV2 cli (mkListParam bucket dir) s = (s1, inr page) ->
  Contents page <> [] ->
  cli_deleteObjects cli (deleteParams_of bucket page) s1 = (s2, inr ack) ->
  let log2 := (log ++ [CallList (mkListParam bucket dir)])
                ++ [CallDelete (deleteParams_of bucket page)] in
  emptyS3Directory cli (S fuel) bucket dir (mkWorld s log)
  = if IsTruncated page then
      let inner := emptyS3Directory cli fuel bucket dir (mkWorld s2 log2) in
      mkEmptyRun (Rejected (TypeError BIND_NOT_A_FUNCTION))
                 (final inner) (quiescent inner) (S (self_calls inner))
    else finished (mkWorld s2 log2) (Resolved JUndefined).
Proof.
  intros Hlist Hne Hdel log2. cbn [emptyS3Directory].
  unfold remote_list, logged at 1. cbn [service calls]. rewrite Hlist.
  rewrite (Contents_nonempty _ Hne).
  unfold remote_delete, logged. cbn [service calls]. rewrite Hdel.
  reflexivity.
Qed.

(** A listing of [k] pages, run with enough fuel: every page is listed and
    deleted, the method invokes itself [k - 1] times, and the promise of the
    first invocation is rejected as soon as there is more than one page. *)
Lemma emptyS3Directory_paged (k : nat) (s s' : W) :
  Paged cli bucket dir k s s' ->
  forall fuel log, k <= fuel ->
    let run := emptyS3Directory cli fuel bucket dir (mkWorld s log) in
    settled run
    = (if Nat.eqb k 1 then Resolved JUndefined
       else Rejected (TypeError BIND_NOT_A_FUNCTION))
    /\ quiescent run = true
    /\ self_calls run = k - 1
    /\ service (final run) = s'
    /\ count_calls is_list_call (calls (final run))
       = count_calls is_list_call log + k
    /\ count_calls is_delete_call (calls (final run))
       = count_calls is_delete_call log + k.
Proof.
  induction 1 as [s s1 s2 page ack Hlist Hne Htr Hdel
                 |k s s1 s2 s' page ack Hlist Hne Htr Hdel Hrest IH];
    intros fuel log Hfuel; (destruct fuel as [|fuel]; [lia|]);
    rewrite (emptyS3Directory_page fuel s s1 s2 log page ack Hlist Hne Hdel);
    rewrite Htr; cbv zeta.
  - unfold finished. cbn [settled quiescent self_calls final service calls].
    rewrite !count_calls_app. cbn. repeat split; lia.
  - pose proof (Paged_positive _ _ _ Hrest) as Hk.
    destruct (IH fuel ((log ++ [CallList (mkListParam bucket dir)])
                         ++ [CallDelete (deleteParams_of bucket page)]))
      as [_ [Hq [Hself [Hserv [Hl Hd]]]]]; [lia|].
    assert (Hnot1 : Nat.eqb (S k) 1 = false) by (apply Nat.eqb_neq; lia).
    rewrite Hnot1.
    cbn [settled quiescent self_calls final].
    rewrite Hl, Hd, !count_calls_app. cbn.
    repeat split; try assumption; lia.
Qed.

(** C1, on the code: on a listing of exactly three pages the three List
    calls and the three batched Delete calls are made and the service ends in
    the state after the last delete, but the promise returned by
    [emptyS3Directory] is rejected with a [TypeError]: the call does not
    complete successfully. *)
Theorem emptyS3Directory_three_pages_rejected (s s' : W) (log : list Call)
    (fuel : nat) :
  Paged cli bucket dir 3 s s' ->
  3 <= fuel ->
  let run := emptyS3Directory cli fuel bucket dir (mkWorld s log) in
  settled run = Rejected (TypeError BIND_NOT_A_FUNCTION)
  /\ quiescent run = true
  /\ service (final run) = s'
  /\ count_calls is_list_call (calls (final run))
     = count_calls is_list_call log + 3
  /\ count_calls is_delete_call (calls (final run))
     = count_calls is_delete_call log + 3.
Proof.
  intros Hpaged Hfuel run.
  destruct (emptyS3Directory_paged 3 s s' Hpaged fuel log Hfuel)
    as [Hs [Hq [_ [Hserv [Hl Hd]]]]].
  repeat split; assumption.
Qed.

(** The promise is rejected as soon as the first page is truncated, whatever
    happens afterwards. *)
Lemma emptyS3Directory_truncated_rejected (fuel : nat) (s s1 s2 : W)
    (log : list Call) (page : ListOutput) (ack : jsval) :
  cli_listObjectsV2 cli (mkListParam bucket dir) s = (s1, inr page) ->
  Contents page <> [] ->
  IsTruncated page = true ->
  cli_deleteObjects cli (deleteParams_of bucket page) s1 = (s2, inr ack) ->
  settled (emptyS3Directory cli (S fuel) bucket dir (mkWorld s log))
  = Rejected (TypeError BIND_NOT_A_FUNCTION).
Proof.
  intros Hlist Hne Htr Hdel.
  rewrite (emptyS3Directory_page fuel s s1 s2 log page ack Hlist Hne Hdel), Htr.
  reflexivity.
Qed.

(** The log only grows. *)
Lemma emptyS3Directory_log_grows (fuel : nat) :
  forall w : World W,
    exists rest,
      calls (final (emptyS3Directory cli fuel bucket dir w)) = calls w ++ rest.
Proof.
  induction fuel as [|fuel IH]; intro w.
  - exists []. cbn. now rewrite app_nil_r.
  - cbn [emptyS3Directory]. unfold remote_list, logged at 1.
    destruct (cli_listObjectsV2 cli (mkListParam bucket dir) (service w))
      as [s1 [err|page]].
    + eexists. reflexivity.
    + destruct (Nat.eqb (length (Contents page)) 0).
      * eexists. reflexivity.
      * unfold remote_delete, logged. cbn [service calls].
        destruct (cli_deleteObjects cli (deleteParams_of bucket page) s1)
          as [s2 [err|ack]].
        -- eexists. cbn. rewrite <- app_assoc. reflexivity.
        -- destruct (IsTruncated page).
           ++ destruct (IH (mkWorld s2
                              ((calls w ++ [CallList (mkListParam bucket dir)])
                                 ++ [CallDelete (deleteParams_of bucket page)])))
                as [rest Hrest].
              eexists. cbn [final]. rewrite Hrest. cbn [calls].
              rewrite <- !app_assoc. reflexivity.
           ++ eexists. cbn. rewrite <- app_assoc. reflexivity.
Qed.

(** The promise of [emptyS3Directory] is never rejected with an error made
    by the class itself ([new Error(...)]). *)
Lemma emptyS3Directory_no_own_error (fuel : nat) (w : World W) (msg : string) :
  settled (emptyS3Directory cli fuel bucket dir w) <> Rejected (Error msg).
Proof.
  destruct fuel as [|fuel]; [discriminate|].
  cbn [emptyS3Directory]. unfold remote_list, logged at 1.
  destruct (cli_listObjectsV2 cli (mkListParam bucket dir) (service w))
    as [s1 [err|page]]; [discriminate|].
  destruct (Nat.eqb (length (Contents page)) 0); [discriminate|].
  unfold remote_delete, logged. cbn [service calls].
  destruct (cli_deleteObjects cli (deleteParams_of bucket page) s1)
    as [s2 [err|ack]]; [discriminate|].
  destruct (IsTruncated page); discriminate.
Qed.

End EmptyDirectory.

(** C10: [emptyS3Directory] checks nothing: whatever [bucket] and [dir] are,
    its first act is the remote List call with exactly these two values, and
    its promise is never rejected with a bad-parameter error, nor with any
    other error made by the class itself. *)
Theorem emptyS3Directory_no_validation {W : Type} (cli : Client W)
    (bucket dir : jsval) (w : World W) (fuel : nat) :
  (exists rest,
     calls (final (emptyS3Directory cli (S fuel) bucket dir w))
     = calls w ++ CallList (mkListParam bucket dir) :: rest)
  /\ forall msg,
       settled (emptyS3Directory cli (S fuel) bucket dir w)
       <> Rejected (Error msg).
Proof.
  split; [|intro msg; apply emptyS3Directory_no_own_error].
  cbn [emptyS3Directory]. unfold remote_list, logged at 1.
  destruct (cli_listObjectsV2 cli (mkListParam bucket dir) (service w))
    as [s1 [err|page]].
  - exists []. reflexivity.
  - destruct (Nat.eqb (length (Contents page)) 0).
    + exists []. reflexivity.
    + unfold remote_delete, logged. cbn [service calls].
      destruct (cli_deleteObjects cli (deleteParams_of bucket page) s1)
        as [s2 [err|ack]].
      * eexists. cbn. rewrite <- app_assoc. reflexivity.
      * destruct (IsTruncated page).
        -- destruct (emptyS3Directory_log_grows cli bucket dir fuel
                       (mkWorld s2
                          ((calls w ++ [CallList (mkListParam bucket dir)])
                             ++ [CallDelete (deleteParams_of bucket page)])))
             as [rest Hrest].
           eexists. cbn [final]. rewrite Hrest. cbn [calls].
           rewrite <- !app_assoc. reflexivity.
        -- eexists. cbn. rewrite <- app_assoc. reflexivity.
Qed.

(** ** The test doubles at work *)

(** The countdown client serves a listing of [n + 1] pages. *)
Lemma countdown_paged (bucket dir : jsval) (n : nat) :
  Paged countdown_client bucket dir (S n) (S n) 0.
Proof.
  induction n as [|n IH].
  - eapply Paged_last; try reflexivity. discriminate.
  - eapply Paged_more; try reflexivity; [discriminate|exact IH].
Qed.

(** With two keys per page, the five objects under [logs/] make three
    pages; the object elsewhere is what is left. *)
Lemma five_logs_paged :
  Paged (mem_client 2) (JString "b") (JString "logs/") 3 five_logs
        [mkMemObject "b" "other" [x63]].
Proof.
  eapply Paged_more; [reflexivity|discriminate|reflexivity|reflexivity|].
  eapply Paged_more; [reflexivity|discriminate|reflexivity|reflexivity|].
  eapply Paged_last; [reflexivity|discriminate|reflexivity|reflexivity].
Qed.

(** After the run nothing is left under [logs/], and a later List answers
    an empty page. *)
Example five_logs_emptied :
  let run := emptyS3Directory (mem_client 2) 3 (JString "b") (JString "logs/")
               (mkWorld five_logs []) in
  filter (under "b" "logs/") (service (final run)) = []
  /\ snd (cli_listObjectsV2 (mem_client 2)
            (mkListParam (JString "b") (JString "logs/")) (service (final run)))
     = inr (mkListOutput [] false).
Proof. split; reflexivity. Qed.

(** [typeof null] is ["object"]: [putJsonObject] sends [null]. *)
Example putJsonObject_null_is_sent :
  @putJsonObject toy_runtime _ scripted_put_client 5
    (JString "b") (JString "k") JNull (mkWorld [inr (JObject [])] [])
  = (mkWorld []
       [CallPut (mkPutParam (JString "b") (JString "k") (JString "null")
                   "application/json")],
     Resolved (JObject [])).
Proof. reflexivity. Qed.

(** With the arguments omitted the body is parsed. *)
Example getObject_defaults_parse :
  snd (@getObject toy_runtime _ (mem_client 2) 5 (JString "b") (JString "k")
         JUndefined JUndefined
         (mkWorld [mkMemObject "b" "k" (list_byte_of_string "[]")] []))
  = Resolved (JArray []).
Proof. reflexivity. Qed.

(** *** Counterexamples to the claims as they are worded *)

(** C3 as worded fails: an empty bucket name and an empty key are strings,
    so the check passes and the remote Get is made. *)
Lemma getObject_empty_names_reach_remote :
  @getObject toy_runtime _ scripted_get_client 5
    (JString EmptyString) (JString EmptyString) (JString "buffer") (JBool false)
    (mkWorld [inr (response (JBuffer [x41]) [])] [])
  = (mkWorld []
       [CallGet (mkGetParam (JString EmptyString) (JString EmptyString))],
     Resolved (JBuffer [x41])).
Proof. reflexivity. Qed.

(** C7 as worded fails: an empty bucket name and an empty key pass the
    check and the remote Put is made. *)
Lemma putJsonObject_empty_names_reach_remote :
  @putJsonObject toy_runtime _ scripted_put_client 5
    (JString EmptyString) (JString EmptyString) (JObject [])
    (mkWorld [inr (JObject [])] [])
  = (mkWorld []
       [CallPut (mkPutParam (JString EmptyString) (JString EmptyString)
                   (JString "{}") "application/json")],
     Resolved (JObject [])).
Proof. reflexivity. Qed.

(** C4 as worded fails: with [retryMax = 1] a Get that always fails with a
    retryable error is attempted twice, not once, and the error surfaced is
    the one of the second attempt. *)
Lemma getObject_retryMax_one_two_calls :
  let run :=
    @getObject toy_runtime _ scripted_get_client 1
      (JString "b") (JString "k") (JString "object") (JBool false)
      (mkWorld [inl (mkAwsError true "first"); inl (mkAwsError true "second");
                inl (mkAwsError true "third")] []) in
  count_calls is_get_call (calls (fst run)) = 2
  /\ snd run = Rejected (ClientError (mkAwsError true "second")).
Proof. split; reflexivity. Qed.

(** *** The theorems at concrete inputs *)

Lemma emptyS3Directory_three_pages_rejected_witness :
  Paged (mem_client 2) (JString "b") (JString "logs/") 3 five_logs
        [mkMemObject "b" "other" [x63]]
  /\ 3 <= 3
  /\ let run := emptyS3Directory (mem_client 2) 3 (JString "b") (JString "logs/")
                  (mkWorld five_logs []) in
     settled run = Rejected (TypeError BIND_NOT_A_FUNCTION)
     /\ quiescent run = true
     /\ service (final run) = [mkMemObject "b" "other" [x63]]
     /\ count_calls is_list_call (calls (final run)) = 0 + 3
     /\ count_calls is_delete_call (calls (final run)) = 0 + 3.
Proof.
  split; [exact five_logs_paged|].
  split; [apply le_n|].
  exact (emptyS3Directory_three_pages_rejected (mem_client 2) (JString "b")
           (JString "logs/") five_logs _ [] 3 five_logs_paged (le_n 3)).
Defined.

Lemma getObject_bad_param_rejected_witness :
  (typeof (JNum 7) <> "string" \/ typeof (JString "k") <> "string" \/
   (JString "json" <> JUndefined /\ ~ allowed_return_type (JString "json")) \/
   (JBool true <> JUndefined /\ typeof (JBool true) <> "boolean"))
  /\ @getObject toy_runtime _ scripted_get_client 5
       (JNum 7) (JString "k") (JString "json") (JBool true)
       (mkWorld [inr (response (JBuffer [x41]) [])] [])
     = (mkWorld [inr (response (JBuffer [x41]) [])] [],
        Rejected (Error "S3_TOOLS_BAD_PARAM_GetObject")).
Proof.
  assert (H : typeof (JNum 7) <> "string" \/ typeof (JString "k") <> "string" \/
              (JString "json" <> JUndefined /\ ~ allowed_return_type (JString "json")) \/
              (JBool true <> JUndefined /\ typeof (JBool true) <> "boolean")).
  { left. simpl. discriminate. }
  split; [exact H|].
  exact (@getObject_bad_param_rejected toy_runtime _ scripted_get_client 5
           (JNum 7) (JString "k") (JString "json") (JBool true) _ H).
Defined.

Lemma putJsonObject_bad_param_rejected_witness :
  (typeof (JString "b") <> "string" \/ typeof (JString "k") <> "string" \/
   typeof (JString "text") <> "object")
  /\ @putJsonObject toy_runtime _ scripted_put_client 5
       (JString "b") (JString "k") (JString "text")
       (mkWorld [inr (JObject [])] [])
     = (mkWorld [inr (JObject [])] [],
        Rejected (Error "S3_TOOLS_BAD_PARAM_PutObject")).
Proof.
  assert (H : typeof (JString "b") <> "string" \/ typeof (JString "k") <> "string" \/
              typeof (JString "text") <> "object").
  { right. right. simpl. discriminate. }
  split; [exact H|].
  exact (@putJsonObject_bad_param_rejected toy_runtime _ scripted_put_client 5
           (JString "b") (JString "k") (JString "text") _ H).
Defined.

Lemma three_failures_retryable_get (p : GetParam) :
  all_attempts_retryable (cli_getObject scripted_get_client p) 3 three_failures.
Proof.
  intros k Hk.
  destruct k as [|[|[|k]]]; [eexists; split; reflexivity ..|lia].
Qed.

Lemma three_failures_retryable_put (p : PutParam) :
  all_attempts_retryable (cli_putObject scripted_put_client p) 3 three_failures.
Proof.
  intros k Hk.
  destruct k as [|[|[|k]]]; [eexists; split; reflexivity ..|lia].
Qed.

Lemma retry_exhausted_calls_and_error_witness :
  1 <= 2
  /\ all_attempts_retryable
       (cli_getObject scripted_get_client (mkGetParam (JString "b") (JString "k")))
       3 three_failures
  /\ @getObject toy_runtime _ scripted_get_client 2
       (JString "b") (JString "k") (JString "string") (JBool false)
       (mkWorld three_failures [])
     = (mkWorld []
          (repeat (CallGet (mkGetParam (JString "b") (JString "k"))) 3),
        Rejected (ClientError (mkAwsError true "third")))
  /\ @putJsonObject toy_runtime _ scripted_put_client 2
       (JString "b") (JString "k") (JArray [])
       (mkWorld three_failures [])
     = (mkWorld []
          (repeat (CallPut (mkPutParam (JString "b") (JString "k")
                              (JString "[]") "application/json")) 3),
        Rejected (ClientError (mkAwsError true "third"))).
Proof.
  split; [lia|].
  split; [apply three_failures_retryable_get|].
  split.
  - destruct (proj1 (@retry_exhausted_calls_and_error toy_runtime _
                       scripted_get_client 2 (JString "b") (JString "k")
                       (mkWorld three_failures [])
                       (le_S _ _ (le_n 1)) eq_refl eq_refl)
                (JString "string") (JBool false)
                (ex_intro _ "string" (conj eq_refl (or_introl eq_refl)))
                eq_refl (three_failures_retryable_get _))
      as [e [Hlast Hrun]].
    injection Hlast as <-. exact Hrun.
  - destruct (proj2 (@retry_exhausted_calls_and_error toy_runtime _
                       scripted_put_client 2 (JString "b") (JString "k")
                       (mkWorld three_failures [])
                       (le_S _ _ (le_n 1)) eq_refl eq_refl)
                (JArray []) eq_refl (three_failures_retryable_put _))
      as [e [Hlast Hrun]].
    injection Hlast as <-. exact Hrun.
Defined.

Lemma format_buffer_identity_roundtrip_witness :
  @gunzip toy_runtime (toy_compress [x68; x69]) = Some [x68; x69]
  /\ @_formatGetObjectResponse toy_runtime
       (response (JBuffer (toy_compress [x68; x69])) [])
       (JString "buffer") (JBool true)
     = Resolved (JBuffer [x68; x69]).
Proof.
  split; [reflexivity|].
  exact (proj2 (@format_buffer_identity_roundtrip toy_runtime [x68; x69] [])
           toy_compress eq_refl).
Defined.

Lemma format_object_gzip_parse_failure_unsettled_witness :
  @gunzip toy_runtime (toy_compress (list_byte_of_string "oops"))
  = Some (list_byte_of_string "oops")
  /\ @JSON_parse toy_runtime
       (@Buffer_toString toy_runtime (list_byte_of_string "oops")) = None
  /\ @_formatGetObjectResponse toy_runtime
       (response (JBuffer (toy_compress (list_byte_of_string "oops"))) [])
       (JString "object") (JBool true)
     = Unsettled (Some SyntaxError).
Proof.
  split; [reflexivity|].
  split; [reflexivity|].
  exact (proj1 (@format_object_gzip_parse_failure_unsettled toy_runtime
                  (toy_compress (list_byte_of_string "oops"))
                  (list_byte_of_string "oops") [] eq_refl eq_refl)).
Defined.

Lemma getObject_retried_no_body_unchecked_witness :
  let p := mkGetParam (JString "b") (JString "missing-key") in
  let script := [inl (mkAwsError true "Throttling");
                 inr [("ContentType", JString "binary/octet-stream")]] in
  cli_getObject scripted_get_client p script
  = ([inr [("ContentType", JString "binary/octet-stream")]],
     inl (mkAwsError true "Throttling"))
  /\ cli_getObject scripted_get_client p
       [inr [("ContentType", JString "binary/octet-stream")]]
     = ([], inr [("ContentType", JString "binary/octet-stream")])
  /\ snd (@getObject toy_runtime _ scripted_get_client 5
            (JString "b") (JString "missing-key") (JString "all") (JBool false)
            (mkWorld script []))
     = Resolved (JObject [("ContentType", JString "binary/octet-stream")]).
Proof.
  intros p script.
  split; [reflexivity|].
  split; [reflexivity|].
  exact (proj1 (@getObject_retried_no_body_unchecked toy_runtime _
                  scripted_get_client 5 (JString "b") (JString "missing-key")
                  (mkWorld script []) _ _ _ _
                  eq_refl eq_refl eq_refl eq_refl eq_refl eq_refl)).
Defined.

(** * Further properties of the class *)

(** ** [getObject] and [putJsonObject]: one path at a time *)

Section Paths.

Context {RT : Runtime} {W : Type}.
Variable cli : Client W.
Variable retryMax : nat.

(** [utils.retry] on a logged operation only repeats that call, at least
    once and at most once more than [remaining]. *)
Lemma retry_attempts_calls {A : Type} (c : Call)
    (operation : W -> W * (AwsError + A)) (remaining : nat) :
  forall w : World W,
    exists j, 1 <= j <= S remaining
      /\ calls (fst (retry_attempts remaining (logged c operation) w))
         = calls w ++ repeat c j.
Proof.
  induction remaining as [|k IH]; intro w; cbn [retry_attempts];
    unfold logged at 1; destruct (operation (service w)) as [s [e|d]].
  - exists 1. split; [lia|]. destruct (retryable e); reflexivity.
  - exists 1. split; [lia|]. reflexivity.
  - destruct (retryable e).
    + destruct (IH (mkWorld s (calls w ++ [c]))) as [j [Hj Hc]].
      exists (S j). split; [lia|]. rewrite Hc. cbn [calls repeat].
      rewrite <- app_assoc. reflexivity.
    + exists 1. split; [lia|]. reflexivity.
  - exists 1. split; [lia|]. reflexivity.
Qed.

Lemma putJsonObject_valid_unfold (bucket key json : jsval) (w : World W) :
  typeof bucket = "string" -> typeof key = "string" ->
  typeof json = "object" ->
  putJsonObject cli retryMax bucket key json w
  = let param :=
      mkPutParam bucket key (JString (JSON_stringify json)) "application/json" in
    let (w1, r) := remote_put cli param w in
    match r with
    | inl err =>
        if retryable err then
          let (w2, r2) := utils_retry (remote_put cli param) retryMax w1 in
          match r2 with
          | inr response => (w2, Resolved response)
          | inl err2 => (w2, Rejected (ClientError err2))
          end
        else (w1, Rejected (ClientError err))
    | inr data => (w1, Resolved data)
    end.
Proof.
  intros Hb Hk Hj. unfold putJsonObject.
  rewrite (eqb_typeof_true _ _ Hb), (eqb_typeof_true _ _ Hk),
    (eqb_typeof_true _ _ Hj).
  reflexivity.
Qed.

(** X1: a Get that fails with an error that is not retryable is not
    retried: one remote call, and the promise is rejected with that error. *)
Theorem getObject_non_retryable_one_call
    (bucket key returnType gzip : jsval) (w : World W) s1 err :
  typeof bucket = "string" -> typeof key = "string" ->
  allowed_return_type returnType -> typeof gzip = "boolean" ->
  cli_getObject cli (mkGetParam bucket key) (service w) = (s1, inl err) ->
  retryable err = false ->
  getObject cli retryMax bucket key returnType gzip w
  = (mkWorld s1 (calls w ++ [CallGet (mkGetParam bucket key)]),
     Rejected (ClientError err)).
Proof.
  intros Hb Hk Hr Hg Hget Hnr.
  rewrite getObject_valid_unfold by assumption.
  cbv zeta. unfold remote_get, logged. rewrite Hget, Hnr. reflexivity.
Qed.

(** X2: when the first Get succeeds and the response has no [Body], or a
    [Body] that is falsy or not a buffer, the promise is rejected with
    [FILE_NOT_FOUND] after that single call, whatever the return type and
    [gzip]. *)
Theorem getObject_no_body_one_call
    (bucket key returnType gzip : jsval) (w : World W) s1 data :
  typeof bucket = "string" -> typeof key = "string" ->
  allowed_return_type returnType -> typeof gzip = "boolean" ->
  cli_getObject cli (mkGetParam bucket key) (service w) = (s1, inr data) ->
  truthy (get_prop data "Body") = false \/ isBuffer (get_prop data "Body") = false ->
  getObject cli retryMax bucket key returnType gzip w
  = (mkWorld s1 (calls w ++ [CallGet (mkGetParam bucket key)]),
     Rejected (Error "FILE_NOT_FOUND")).
Proof.
  intros Hb Hk Hr Hg Hget Hbody.
  rewrite getObject_valid_unfold by assumption.
  cbv zeta. unfold remote_get, logged. rewrite Hget.
  destruct Hbody as [H|H]; rewrite H; simpl; rewrite ?orb_true_r; reflexivity.
Qed.

(** X3: when the first Get succeeds with a buffer as [Body], of any length,
    zero included, one remote call is made and the answer is the one of the
    formatter; with ["buffer"] and no [gzip] it is the bytes of the body. *)
Theorem getObject_buffer_body_formatted
    (bucket key returnType gzip : jsval) (w : World W) s1 data bytes :
  typeof bucket = "string" -> typeof key = "string" ->
  allowed_return_type returnType -> typeof gzip = "boolean" ->
  cli_getObject cli (mkGetParam bucket key) (service w) = (s1, inr data) ->
  get_prop data "Body" = JBuffer bytes ->
  getObject cli retryMax bucket key returnType gzip w
  = (mkWorld s1 (calls w ++ [CallGet (mkGetParam bucket key)]),
     _formatGetObjectResponse data returnType gzip)
  /\ getObject cli retryMax bucket key (JString "buffer") (JBool false) w
     = (mkWorld s1 (calls w ++ [CallGet (mkGetParam bucket key)]),
        Resolved (JBuffer bytes)).
Proof.
  intros Hb Hk Hr Hg Hget Hbody.
  assert (Hgen : forall rt gz, allowed_return_type rt -> typeof gz = "boolean" ->
            getObject cli retryMax bucket key rt gz w
            = (mkWorld s1 (calls w ++ [CallGet (mkGetParam bucket key)]),
               _formatGetObjectResponse data rt gz)).
  { intros rt gz Hrt Hgz.
    rewrite getObject_valid_unfold by assumption.
    cbv zeta. unfold remote_get, logged. rewrite Hget, Hbody. reflexivity. }
  split; [now apply Hgen|].
  rewrite Hgen; [|exists "buffer"; simpl; auto|reflexivity].
  unfold _formatGetObjectResponse. rewrite Hbody. reflexivity.
Qed.

(** X4: [putJsonObject] never answers by itself: whenever its promise is
    resolved, or rejected with an error of the service, the arguments have
    passed the check of line 69 and the first call made is the Put of
    [JSON.stringify(json)], with content type [application/json], under the
    bucket and the key given. *)
Theorem putJsonObject_answers_after_put (bucket key json : jsval) (w : World W) :
  let run := putJsonObject cli retryMax bucket key json w in
  (exists v, snd run = Resolved v)
  \/ (exists e, snd run = Rejected (ClientError e)) ->
  (typeof bucket = "string" /\ typeof key = "string"
   /\ typeof json = "object")
  /\ exists rest,
       calls (fst run)
       = calls w
         ++ CallPut (mkPutParam bucket key (JString (JSON_stringify json))
                       "application/json") :: rest.
Proof.
  intros run Hanswer.
  assert (Hvalid : typeof bucket = "string" /\ typeof key = "string"
                   /\ typeof json = "object").
  { destruct (String.eqb_spec (typeof bucket) "string") as [Hb|Hb];
      [|exfalso; unfold run, putJsonObject in Hanswer;
        rewrite (eqb_typeof_false _ _ Hb) in Hanswer; cbn in Hanswer;
        destruct Hanswer as [[v H]|[e H]]; discriminate H].
    destruct (String.eqb_spec (typeof key) "string") as [Hk|Hk];
      [|exfalso; unfold run, putJsonObject in Hanswer;
        rewrite (eqb_typeof_false _ _ Hk), !orb_true_r in Hanswer;
        cbn in Hanswer; destruct Hanswer as [[v H]|[e H]]; discriminate H].
    destruct (String.eqb_spec (typeof json) "object") as [Hj|Hj];
      [|exfalso; unfold run, putJsonObject in Hanswer;
        rewrite (eqb_typeof_false _ _ Hj), !orb_true_r in Hanswer;
        cbn in Hanswer; destruct Hanswer as [[v H]|[e H]]; discriminate H].
    now repeat split. }
  split; [exact Hvalid|].
  destruct Hvalid as [Hb [Hk Hj]]. unfold run.
  rewrite putJsonObject_valid_unfold by assumption.
  cbv zeta. set (param := mkPutParam _ _ _ _).
  unfold remote_put at 1, logged at 1.
  destruct (cli_putObject cli param (service w)) as [s [err|data]].
  - destruct (retryable err).
    + unfold utils_retry, remote_put.
      destruct (retry_attempts_calls (CallPut param) (cli_putObject cli param)
                  (retryMax - 1) (mkWorld s (calls w ++ [CallPut param])))
        as [j [_ Hc]].
      destruct (retry_attempts _ _ _) as [w2 [e2|d2]]; cbn [fst] in *;
        rewrite Hc; cbn [calls]; rewrite <- app_assoc; eexists; reflexivity.
    + exists []. reflexivity.
  - exists []. reflexivity.
Qed.

(** X5: a Put that succeeds at once resolves with the acknowledgement of
    the service, after one remote call. *)
Theorem putJsonObject_success_one_call
    (bucket key json : jsval) (w : World W) s1 ack :
  typeof bucket = "string" -> typeof key = "string" ->
  typeof json = "object" ->
  let param :=
    mkPutParam bucket key (JString (JSON_stringify json)) "application/json" in
  cli_putObject cli param (service w) = (s1, inr ack) ->
  putJsonObject cli retryMax bucket key json w
  = (mkWorld s1 (calls w ++ [CallPut param]), Resolved ack).
Proof.
  intros Hb Hk Hj param Hput.
  rewrite putJsonObject_valid_unfold by assumption.
  cbv zeta. fold param. unfold remote_put, logged. rewrite Hput. reflexivity.
Qed.

(** X6: a Put that fails with an error that is not retryable is not
    retried: one remote call, and the promise is rejected with that error. *)
Theorem putJsonObject_non_retryable_one_call
    (bucket key json : jsval) (w : World W) s1 err :
  typeof bucket = "string" -> typeof key = "string" ->
  typeof json = "object" ->
  let param :=
    mkPutParam bucket key (JString (JSON_stringify json)) "application/json" in
  cli_putObject cli param (service w) = (s1, inl err) ->
  retryable err = false ->
  putJsonObject cli retryMax bucket key json w
  = (mkWorld s1 (calls w ++ [CallPut param]), Rejected (ClientError err)).
Proof.
  intros Hb Hk Hj param Hput Hnr.
  rewrite putJsonObject_valid_unfold by assumption.
  cbv zeta. fold param. unfold remote_put, logged. rewrite Hput, Hnr.
  reflexivity.
Qed.

(** X7: [getObject] talks to the service through Get only, always with the
    same [{Bucket, Key}], and at most [1 + max 1 retryMax] times. *)
Theorem getObject_calls_bounded (bucket key returnType gzip : jsval)
    (w : World W) :
  exists j, j <= 1 + Nat.max 1 retryMax
    /\ calls (fst (getObject cli retryMax bucket key returnType gzip w))
       = calls w ++ repeat (CallGet (mkGetParam bucket key)) j.
Proof.
  unfold getObject.
  destruct (_ || _).
  - exists 0. split; [lia|]. cbn. now rewrite app_nil_r.
  - set (param := mkGetParam bucket key).
    unfold remote_get at 1, logged at 1.
    destruct (cli_getObject cli param (service w)) as [s [err|data]].
    + destruct (retryable err).
      * unfold utils_retry, remote_get.
        destruct (retry_attempts_calls (CallGet param) (cli_getObject cli param)
                    (retryMax - 1) (mkWorld s (calls w ++ [CallGet param])))
          as [j [Hj Hc]].
        exists (S j). split; [lia|].
        destruct (retry_attempts _ _ _) as [w2 [e2|d2]]; cbn [fst] in *;
          rewrite Hc; cbn [calls repeat]; rewrite <- app_assoc; reflexivity.
      * exists 1. split; [lia|]. reflexivity.
    + exists 1. split; [lia|]. destruct (_ || _); reflexivity.
Qed.

(** X8: [putJsonObject] talks to the service through Put only, always with
    the same parameters, and at most [1 + max 1 retryMax] times. *)
Theorem putJsonObject_calls_bounded (bucket key json : jsval) (w : World W) :
  exists j, j <= 1 + Nat.max 1 retryMax
    /\ calls (fst (putJsonObject cli retryMax bucket key json w))
       = calls w
         ++ repeat (CallPut (mkPutParam bucket key (JString (JSON_stringify json))
                               "application/json")) j.
Proof.
  unfold putJsonObject.
  destruct (_ || _).
  - exists 0. split; [lia|]. cbn. now rewrite app_nil_r.
  - set (param := mkPutParam _ _ _ _).
    unfold remote_put at 1, logged at 1.
    destruct (cli_putObject cli param (service w)) as [s [err|data]].
    + destruct (retryable err).
      * unfold utils_retry, remote_put.
        destruct (retry_attempts_calls (CallPut param) (cli_putObject cli param)
                    (retryMax - 1) (mkWorld s (calls w ++ [CallPut param])))
          as [j [Hj Hc]].
        exists (S j). split; [lia|].
        destruct (retry_attempts _ _ _) as [w2 [e2|d2]]; cbn [fst] in *;
          rewrite Hc; cbn [calls repeat]; rewrite <- app_assoc; reflexivity.
      * exists 1. split; [lia|]. reflexivity.
    + exists 1. split; [lia|]. reflexivity.
Qed.

(** X9: what [putJsonObject] stores, [getObject] reads back: when the Put
    is acknowledged, the following Get answers a buffer holding the text
    that was sent, and [JSON.parse] undoes [JSON.stringify] on [json], then
    [getObject] with its defaults resolves with [json], after one Put and one
    Get. *)
Theorem put_then_get_roundtrip
    (bucket key json : jsval) (w : World W) s1 s2 ack envelope :
  typeof bucket = "string" -> typeof key = "string" ->
  typeof json = "object" ->
  let param :=
    mkPutParam bucket key (JString (JSON_stringify json)) "application/json" in
  cli_putObject cli param (service w) = (s1, inr ack) ->
  cli_getObject cli (mkGetParam bucket key) s1
  = (s2, inr (response (JBuffer (Buffer_from (JSON_stringify json))) envelope)) ->
  JSON_parse (Buffer_toString (Buffer_from (JSON_stringify json))) = Some json ->
  let stored := putJsonObject cli retryMax bucket key json w in
  let fetched :=
    getObject cli retryMax bucket key JUndefined JUndefined (fst stored) in
  snd stored = Resolved ack
  /\ snd fetched = Resolved json
  /\ calls (fst fetched)
     = calls w ++ [CallPut param; CallGet (mkGetParam bucket key)].
Proof.
  intros Hb Hk Hj param Hput Hget Hparse stored fetched.
  assert (Hs : stored = (mkWorld s1 (calls w ++ [CallPut param]), Resolved ack)).
  { unfold stored. rewrite putJsonObject_valid_unfold by assumption.
    cbv zeta. fold param. unfold remote_put, logged. rewrite Hput.
    reflexivity. }
  assert (Hf : fetched
               = (mkWorld s2 ((calls w ++ [CallPut param])
                                ++ [CallGet (mkGetParam bucket key)]),
                  Resolved json)).
  { unfold fetched. rewrite Hs. cbn [fst].
    change (getObject cli retryMax bucket key JUndefined JUndefined)
      with (getObject cli retryMax bucket key (JString "object") (JBool false)).
    rewrite getObject_valid_unfold;
      [|assumption|assumption|exists "object"; simpl; auto|reflexivity].
    cbv zeta. unfold remote_get, logged. cbn [service calls]. rewrite Hget.
    rewrite get_prop_response. cbn [truthy isBuffer negb orb].
    unfold _formatGetObjectResponse. rewrite get_prop_response.
    cbn. rewrite Hparse. reflexivity. }
  rewrite Hs, Hf. cbn [fst snd calls]. repeat split.
  rewrite <- app_assoc. reflexivity.
Qed.

End Paths.

(** ** The formatter: how the return types relate *)

Lemma strict_eq_string_false (v : jsval) (s : string) :
  v <> JString s -> strict_eq_string v s = false.
Proof.
  intro H. destruct v; try reflexivity. simpl.
  apply String.eqb_neq. congruence.
Qed.

Section FormatterRelations.

Context {RT : Runtime}.

(** X10: any return type other than ["buffer"], ["string"] and ["object"]
    (["all"], but also anything else: the formatter checks nothing) resolves
    with the response as it is, whatever [gzip] and the body are. *)
Theorem format_other_return_type_envelope
    (data : list (string * jsval)) (returnType gzip : jsval) :
  returnType <> JString "buffer" -> returnType <> JString "string" ->
  returnType <> JString "object" ->
  _formatGetObjectResponse data returnType gzip = Resolved (JObject data).
Proof.
  intros H1 H2 H3. unfold _formatGetObjectResponse.
  now rewrite (strict_eq_string_false _ _ H1), (strict_eq_string_false _ _ H2),
    (strict_eq_string_false _ _ H3).
Qed.

(** X11: on a buffer body, the answer for ["string"] is the answer for
    ["buffer"] turned into text, with [gzip] and without it; the two fail
    together, and in the same way. *)
Theorem format_string_is_text_of_buffer
    (bytes : list byte) (envelope : list (string * jsval)) (gzip : bool) :
  _formatGetObjectResponse (response (JBuffer bytes) envelope)
    (JString "string") (JBool gzip)
  = outcome_map text_of_buffer
      (_formatGetObjectResponse (response (JBuffer bytes) envelope)
         (JString "buffer") (JBool gzip)).
Proof.
  unfold _formatGetObjectResponse. rewrite get_prop_response.
  destruct gzip; cbn; [|reflexivity].
  destruct (gunzip bytes); reflexivity.
Qed.

(** X12: formatting a compressed body is formatting the inflated bytes:
    when [gunzip] succeeds, [gzip = true] on the compressed body answers what
    [gzip = false] answers on the inflated one, for ["buffer"] and
    ["string"], and for ["object"] as long as the inflated text parses. *)
Theorem format_gzip_is_format_of_inflated
    (compressed inflated : list byte) (envelope : list (string * jsval))
    (returnType : string) :
  gunzip compressed = Some inflated ->
  returnType = "buffer" \/ returnType = "string"
  \/ (returnType = "object" /\ JSON_parse (Buffer_toString inflated) <> None) ->
  _formatGetObjectResponse (response (JBuffer compressed) envelope)
    (JString returnType) (JBool true)
  = _formatGetObjectResponse (response (JBuffer inflated) envelope)
      (JString returnType) (JBool false).
Proof.
  intros Hz [->|[->|[-> Hp]]]; unfold _formatGetObjectResponse;
    rewrite !get_prop_response; cbn; rewrite Hz; try reflexivity.
  destruct (JSON_parse (Buffer_toString inflated)); [reflexivity|congruence].
Qed.

(** X13: with [gzip], a body that [gunzip] refuses rejects the promise with
    the error of zlib for each of the three decoded return types, before any
    decoding or parsing; ["all"] does not look at the body and resolves. *)
Theorem format_gunzip_refused
    (bytes : list byte) (envelope : list (string * jsval)) :
  gunzip bytes = None ->
  (forall returnType, In returnType ["buffer"; "string"; "object"] ->
     _formatGetObjectResponse (response (JBuffer bytes) envelope)
       (JString returnType) (JBool true)
     = Rejected ZlibError)
  /\ _formatGetObjectResponse (response (JBuffer bytes) envelope)
       (JString "all") (JBool true)
     = Resolved (JObject (response (JBuffer bytes) envelope)).
Proof.
  intro H. split; [|reflexivity].
  intros returnType Hin. simpl in Hin.
  destruct Hin as [<-|[<-|[<-|[]]]];
    unfold _formatGetObjectResponse; rewrite get_prop_response; cbn;
    now rewrite H.
Qed.

End FormatterRelations.

(** ** [emptyS3Directory]: how a run ends, and what it calls *)

Ltac finish_invariant :=
  unfold count_calls in *; cbn [filter is_list_call is_delete_call length] in *;
  repeat split;
  try reflexivity; try (rewrite <- !app_assoc; reflexivity);
  try (repeat constructor; assumption); try lia; auto.

Section EmptyDirectoryPaths.

Context {W : Type}.
Variable cli : Client W.
Variables bucket dir : jsval.

(** X14: an empty first page ends the run at once, successfully: one List
    call, no Delete, no self-invocation, even when the page is reported
    truncated. *)
Theorem emptyS3Directory_empty_page (fuel : nat) (w : World W) s1 page :
  cli_listObjectsV2 cli (mkListParam bucket dir) (service w) = (s1, inr page) ->
  Contents page = [] ->
  emptyS3Directory cli (S fuel) bucket dir w
  = mkEmptyRun (Resolved JUndefined)
      (mkWorld s1 (calls w ++ [CallList (mkListParam bucket dir)])) true 0.
Proof.
  intros Hlist Hempty. cbn [emptyS3Directory].
  unfold remote_list, logged. rewrite Hlist, Hempty. reflexivity.
Qed.

(** X15: a failure of the service stops the run: when the List fails the
    promise is rejected with its error and nothing is deleted; when the
    Delete of a page fails the promise is rejected with its error and no
    further page is listed, truncated or not. *)
Theorem emptyS3Directory_failure_stops (fuel : nat) (w : World W) :
  (forall s1 err,
     cli_listObjectsV2 cli (mkListParam bucket dir) (service w) = (s1, inl err) ->
     emptyS3Directory cli (S fuel) bucket dir w
     = mkEmptyRun (Rejected (ClientError err))
         (mkWorld s1 (calls w ++ [CallList (mkListParam bucket dir)])) true 0)
  /\
  (forall s1 s2 page err,
     cli_listObjectsV2 cli (mkListParam bucket dir) (service w) = (s1, inr page) ->
     Contents page <> [] ->
     cli_deleteObjects cli (deleteParams_of bucket page) s1 = (s2, inl err) ->
     emptyS3Directory cli (S fuel) bucket dir w
     = mkEmptyRun (Rejected (ClientError err))
         (mkWorld s2 ((calls w ++ [CallList (mkListParam bucket dir)])
                        ++ [CallDelete (deleteParams_of bucket page)])) true 0).
Proof.
  split.
  - intros s1 err Hlist. cbn [emptyS3Directory].
    unfold remote_list, logged. rewrite Hlist. reflexivity.
  - intros s1 s2 page err Hlist Hne Hdel. cbn [emptyS3Directory].
    unfold remote_list, logged at 1. rewrite Hlist.
    rewrite (Contents_nonempty _ Hne).
    unfold remote_delete, logged. cbn [service calls]. rewrite Hdel.
    reflexivity.
Qed.

(** X16: a single page that is not truncated is deleted in one batch and
    the run succeeds: the Delete carries the bucket as given and the keys of
    the page, all of them, in the order of the listing. *)
Theorem emptyS3Directory_single_page (fuel : nat) (w : World W)
    s1 s2 page ack :
  cli_listObjectsV2 cli (mkListParam bucket dir) (service w) = (s1, inr page) ->
  Contents page <> [] ->
  IsTruncated page = false ->
  cli_deleteObjects cli (deleteParams_of bucket page) s1 = (s2, inr ack) ->
  let run := emptyS3Directory cli (S fuel) bucket dir w in
  settled run = Resolved JUndefined
  /\ quiescent run = true
  /\ service (final run) = s2
  /\ exists batch,
       calls (final run)
       = calls w ++ [CallList (mkListParam bucket dir); CallDelete batch]
       /\ dBucket batch = bucket
       /\ map Key (dObjects batch) = map cKey (Contents page).
Proof.
  intros Hlist Hne Htr Hdel run. unfold run.
  destruct w as [s log]. cbn [service] in Hlist.
  rewrite (emptyS3Directory_page cli bucket dir fuel s s1 s2 log page ack
             Hlist Hne Hdel), Htr.
  cbn [finished settled quiescent final service calls].
  repeat split.
  exists (deleteParams_of bucket page). repeat split.
  - rewrite <- app_assoc. reflexivity.
  - unfold deleteParams_of. cbn [dObjects]. rewrite map_map. reflexivity.
Qed.

(** X17: the promise of [emptyS3Directory] is resolved in two cases only:
    the first page is empty, or it is not truncated and its Delete
    succeeds.  In every other case it is rejected. *)
Theorem emptyS3Directory_resolves_iff (fuel : nat) (w : World W) :
  (exists v, settled (emptyS3Directory cli (S fuel) bucket dir w) = Resolved v)
  <->
  exists s1 page,
    cli_listObjectsV2 cli (mkListParam bucket dir) (service w) = (s1, inr page)
    /\ (Contents page = []
        \/ (IsTruncated page = false
            /\ exists s2 ack,
                 cli_deleteObjects cli (deleteParams_of bucket page) s1
                 = (s2, inr ack))).
Proof.
  cbn [emptyS3Directory]. unfold remote_list, logged at 1.
  destruct (cli_listObjectsV2 cli (mkListParam bucket dir) (service w))
    as [s1 [err|page]].
  - split; [intros [v H]; discriminate H|].
    intros [s1' [page [H _]]]. discriminate H.
  - destruct (Contents page) as [|c rest] eqn:Hc.
    + split; [|intros _; exists JUndefined; reflexivity].
      intros _. exists s1, page. split; [reflexivity|]. now left.
    + cbn [length Nat.eqb].
      unfold remote_delete, logged. cbn [service calls].
      destruct (cli_deleteObjects cli (deleteParams_of bucket page) s1)
        as [s2 [err|ack]] eqn:Hdel.
      * split; [intros [v H]; discriminate H|].
        intros [s1' [page' [H [Hempty|[_ [s2' [ack Hd]]]]]]];
          inversion H; subst; congruence.
      * destruct (IsTruncated page) eqn:Htr.
        -- split; [intros [v H]; discriminate H|].
           intros [s1' [page' [H [Hempty|[Hfalse _]]]]];
             inversion H; subst; congruence.
        -- split; [|intros _; exists JUndefined; reflexivity].
           intros _. exists s1, page. split; [reflexivity|].
           right. split; [exact Htr|]. now exists s2, ack.
Qed.

(** X18: after a truncated first page whose Delete succeeds the method has
    already invoked itself, so that the List of the next page is sent, when
    its promise is rejected with the [TypeError]; this holds whatever the
    service answers afterwards. *)
Theorem emptyS3Directory_truncated_lists_again (fuel : nat) (w : World W)
    s1 s2 page ack :
  cli_listObjectsV2 cli (mkListParam bucket dir) (service w) = (s1, inr page) ->
  Contents page <> [] ->
  IsTruncated page = true ->
  cli_deleteObjects cli (deleteParams_of bucket page) s1 = (s2, inr ack) ->
  let run := emptyS3Directory cli (S (S fuel)) bucket dir w in
  settled run = Rejected (TypeError BIND_NOT_A_FUNCTION)
  /\ 1 <= self_calls run
  /\ exists rest,
       calls (final run)
       = calls w ++ [CallList (mkListParam bucket dir);
                     CallDelete (deleteParams_of bucket page);
                     CallList (mkListParam bucket dir)] ++ rest.
Proof.
  intros Hlist Hne Htr Hdel run. unfold run.
  destruct w as [s log]. cbn [service] in Hlist.
  rewrite (emptyS3Directory_page cli bucket dir (S fuel) s s1 s2 log page ack
             Hlist Hne Hdel), Htr.
  cbv zeta. cbn [settled self_calls final calls].
  split; [reflexivity|]. split; [lia|].
  set (log2 := (log ++ [CallList (mkListParam bucket dir)])
                 ++ [CallDelete (deleteParams_of bucket page)]).
  cbn [emptyS3Directory]. unfold remote_list, logged at 1. cbn [service calls].
  destruct (cli_listObjectsV2 cli (mkListParam bucket dir) s2)
    as [s3 [err|page2]].
  - exists []. cbn. unfold log2. rewrite <- !app_assoc. reflexivity.
  - destruct (Nat.eqb (length (Contents page2)) 0).
    + exists []. cbn. unfold log2. rewrite <- !app_assoc. reflexivity.
    + unfold remote_delete, logged. cbn [service calls].
      destruct (cli_deleteObjects cli (deleteParams_of bucket page2) s3)
        as [s4 [err|ack2]].
      * eexists. cbn. unfold log2. rewrite <- !app_assoc. reflexivity.
      * destruct (IsTruncated page2).
        -- destruct (emptyS3Directory_log_grows cli bucket dir fuel
                       (mkWorld s4
                          ((log2 ++ [CallList (mkListParam bucket dir)])
                             ++ [CallDelete (deleteParams_of bucket page2)])))
             as [rest Hrest].
           eexists. cbn [final]. rewrite Hrest. cbn [calls]. unfold log2.
           rewrite <- !app_assoc. reflexivity.
        -- eexists. cbn. unfold log2. rewrite <- !app_assoc. reflexivity.
Qed.

(** X19: a run of [emptyS3Directory] only lists [(bucket, dir)] and deletes
    in [bucket]: no Get, no Put, no other bucket.  Every Delete follows a
    List of its own, and one List is made per invocation: Deletes <= Lists
    <= Deletes + 1, and the self-invocations never outnumber the Lists. *)
Theorem emptyS3Directory_calls_invariant (fuel : nat) :
  forall w : World W,
    let run := emptyS3Directory cli fuel bucket dir w in
    exists new,
      calls (final run) = calls w ++ new
      /\ Forall (empties_call bucket dir) new
      /\ count_calls is_delete_call new <= count_calls is_list_call new
      /\ count_calls is_list_call new <= S (count_calls is_delete_call new)
      /\ count_calls is_list_call new <= fuel
      /\ self_calls run <= count_calls is_list_call new.
Proof.
  assert (HL : empties_call bucket dir (CallList (mkListParam bucket dir)))
    by now left.
  assert (HD : forall page,
             empties_call bucket dir (CallDelete (deleteParams_of bucket page))).
  { intro page. right. eexists. reflexivity. }
  induction fuel as [|fuel IH]; intro w; cbv zeta.
  - exists []. cbn. rewrite app_nil_r. finish_invariant.
  - cbn [emptyS3Directory]. unfold remote_list, remote_delete, logged.
    destruct (cli_listObjectsV2 cli (mkListParam bucket dir) (service w))
      as [s1 [err|page]].
    + exists [CallList (mkListParam bucket dir)]. cbn.
      finish_invariant.
    + destruct (Nat.eqb (length (Contents page)) 0).
      * exists [CallList (mkListParam bucket dir)]. cbn.
        finish_invariant.
      * cbn [service calls].
        destruct (cli_deleteObjects cli (deleteParams_of bucket page) s1)
          as [s2 [err|ack]].
        -- exists [CallList (mkListParam bucket dir);
                   CallDelete (deleteParams_of bucket page)].
           cbn. rewrite <- app_assoc. finish_invariant.
        -- destruct (IsTruncated page).
           ++ destruct (IH (mkWorld s2
                              ((calls w ++ [CallList (mkListParam bucket dir)])
                                 ++ [CallDelete (deleteParams_of bucket page)])))
                as [new [Hc [Hall [H1 [H2 [H3 H4]]]]]].
              exists (CallList (mkListParam bucket dir)
                        :: CallDelete (deleteParams_of bucket page) :: new).
              cbn [final self_calls]. rewrite Hc. cbn [calls].
              finish_invariant.
           ++ exists [CallList (mkListParam bucket dir);
                      CallDelete (deleteParams_of bucket page)].
              cbn. rewrite <- app_assoc. finish_invariant.
Qed.

End EmptyDirectoryPaths.

(** ** [emptyS3Directory] against the in-memory store *)

Lemma filter_none {A : Type} (f : A -> bool) (l : list A) :
  (forall x, In x l -> f x = false) -> filter f l = [].
Proof.
  induction l as [|a l IH]; intro H; [reflexivity|].
  simpl. rewrite (H a (or_introl eq_refl)). apply IH.
  intros x Hx. apply H. now right.
Qed.

Lemma filter_commute {A : Type} (f g : A -> bool) (l : list A) :
  filter f (filter g l) = filter g (filter f l).
Proof.
  induction l as [|a l IH]; [reflexivity|].
  simpl. destruct (f a) eqn:Ef, (g a) eqn:Eg; simpl;
    rewrite ?Ef, ?Eg, IH; reflexivity.
Qed.

Lemma filter_kept {A : Type} (f g : A -> bool) (l : list A) :
  (forall x, f x = true -> g x = true) ->
  filter f (filter g l) = filter f l.
Proof.
  intro H. induction l as [|a l IH]; [reflexivity|].
  simpl. destruct (f a) eqn:Ef.
  - rewrite (H a Ef). simpl. rewrite Ef, IH. reflexivity.
  - destruct (g a); simpl; rewrite ?Ef, IH; reflexivity.
Qed.

Lemma filter_length_bound {A : Type} (f : A -> bool) (l : list A) :
  length (filter f l) <= length l.
Proof.
  induction l as [|a l IH]; [apply le_n|].
  simpl. destruct (f a); simpl; lia.
Qed.

Lemma In_firstn {A : Type} (n : nat) (l : list A) (x : A) :
  In x (firstn n l) -> In x l.
Proof.
  revert l. induction n as [|n IH]; intros [|a l] H; simpl in *; try contradiction.
  destruct H as [H|H]; [now left|right; now apply IH].
Qed.

Section MemStore.

Variable maxKeys : nat.
Variables bucket dir : string.

Local Notation "'kept'" := (mem_kept bucket).
Local Notation "'mem_page'" := (mem_page_of maxKeys bucket dir).

Lemma mem_list_eq (store : list MemObject) :
  cli_listObjectsV2 (mem_client maxKeys)
    (mkListParam (JString bucket) (JString dir)) store
  = (store, inr (mem_page store)).
Proof. reflexivity. Qed.

Lemma mem_delete_eq (store : list MemObject) (page : ListOutput) :
  cli_deleteObjects (mem_client maxKeys)
    (deleteParams_of (JString bucket) page) store
  = (filter (kept (dObjects (deleteParams_of (JString bucket) page))) store,
     inr (JObject [])).
Proof. reflexivity. Qed.

(** Every object of the page is deleted. *)
Lemma kept_false_on_page (store : list MemObject) (o : MemObject) :
  In o (firstn maxKeys (filter (under bucket dir) store)) ->
  kept (dObjects (deleteParams_of (JString bucket) (mem_page store))) o = false.
Proof.
  intro Hin.
  assert (Hu : under bucket dir o = true).
  { apply In_firstn in Hin. now apply filter_In in Hin. }
  unfold under in Hu. apply andb_true_iff in Hu. destruct Hu as [Hb _].
  unfold mem_kept. rewrite Hb. cbn [andb]. apply negb_false_iff.
  apply existsb_exists. exists (mkObjectIdentifier (oKey o)).
  split; [|apply String.eqb_refl].
  unfold deleteParams_of, mem_page_of. cbn [dObjects Contents].
  rewrite map_map. cbn [cKey].
  apply (in_map (fun x => mkObjectIdentifier (oKey x))). exact Hin.
Qed.

(** No object outside [(bucket, dir)] is deleted. *)
Lemma kept_true_elsewhere (store : list MemObject) (o : MemObject) :
  elsewhere bucket dir o = true ->
  kept (dObjects (deleteParams_of (JString bucket) (mem_page store))) o = true.
Proof.
  unfold elsewhere. intro He. apply negb_true_iff in He.
  unfold mem_kept. apply negb_true_iff.
  destruct (String.eqb (oBucket o) bucket) eqn:Hb; [|reflexivity].
  cbn [andb].
  destruct (existsb _ _) eqn:Hex; [|reflexivity].
  exfalso. apply existsb_exists in Hex. destruct Hex as [id [Hid Hkey]].
  unfold deleteParams_of, mem_page_of in Hid. cbn [dObjects Contents] in Hid.
  rewrite map_map in Hid. cbn [cKey] in Hid.
  apply in_map_iff in Hid. destruct Hid as [o' [<- Hin]].
  cbn [Key] in Hkey. apply String.eqb_eq in Hkey.
  apply In_firstn in Hin. apply filter_In in Hin. destruct Hin as [_ Hu].
  unfold under in Hu, He. apply andb_true_iff in Hu. destruct Hu as [_ Hp].
  rewrite Hkey in Hp. rewrite Hb, Hp in He. discriminate He.
Qed.

(** The objects under [(bucket, dir)] after the delete of a page: none of
    the page, so at most those beyond it. *)
Lemma under_after_delete (store : list MemObject) :
  let store' :=
    filter (kept (dObjects (deleteParams_of (JString bucket) (mem_page store))))
           store in
  filter (under bucket dir) store'
  = filter (kept (dObjects (deleteParams_of (JString bucket) (mem_page store))))
      (skipn maxKeys (filter (under bucket dir) store)).
Proof.
  cbv zeta. rewrite filter_commute.
  rewrite <- (firstn_skipn maxKeys (filter (under bucket dir) store)) at 1.
  rewrite filter_app, filter_none; [reflexivity|].
  intros o Hin. now apply kept_false_on_page.
Qed.

(** X20: run against a store that lists at most [maxKeys >= 1] keys per
    page, with enough fuel for its pages, [emptyS3Directory] ends with no
    object left under the prefix in the bucket, and with every other object
    of the store still there, whether its own promise is resolved or
    rejected. *)
Theorem emptyS3Directory_empties_store :
  1 <= maxKeys ->
  forall (fuel : nat) (store : list MemObject) (log : list Call),
    length (filter (under bucket dir) store) < fuel ->
    let run := emptyS3Directory (mem_client maxKeys) fuel
                 (JString bucket) (JString dir) (mkWorld store log) in
    quiescent run = true
    /\ filter (under bucket dir) (service (final run)) = []
    /\ filter (elsewhere bucket dir) (service (final run))
       = filter (elsewhere bucket dir) store.
Proof.
  intro Hmax.
  induction fuel as [|fuel IH]; intros store log Hfuel; [lia|].
  cbv zeta.
  destruct (filter (under bucket dir) store) as [|o matching] eqn:Hm.
  - cbn [emptyS3Directory]. unfold remote_list, logged. cbn [service calls].
    rewrite mem_list_eq. unfold mem_page_of. rewrite Hm, firstn_nil.
    cbn. rewrite Hm. repeat split.
  - assert (Hne : Contents (mem_page store) <> []).
    { unfold mem_page_of. cbn [Contents]. rewrite Hm.
      destruct maxKeys; [lia|]. discriminate. }
    rewrite (emptyS3Directory_page (mem_client maxKeys) (JString bucket)
               (JString dir) fuel store store _ log (mem_page store) _
               (mem_list_eq store) Hne (mem_delete_eq store (mem_page store))).
    set (store' := filter (kept _) store).
    assert (Hunder : filter (under bucket dir) store'
                     = filter (kept (dObjects (deleteParams_of (JString bucket)
                                                 (mem_page store))))
                         (skipn maxKeys (filter (under bucket dir) store)))
      by apply under_after_delete.
    assert (Helse : filter (elsewhere bucket dir) store'
                    = filter (elsewhere bucket dir) store).
    { unfold store'. apply filter_kept.
      intros x Hx. now apply kept_true_elsewhere. }
    destruct (IsTruncated (mem_page store)) eqn:Htr.
    + cbv zeta. cbn [quiescent final].
      unfold mem_page_of in Htr. cbn [IsTruncated] in Htr.
      apply Nat.ltb_lt in Htr.
      destruct (IH store'
                  ((log ++ [CallList (mkListParam (JString bucket) (JString dir))])
                     ++ [CallDelete (deleteParams_of (JString bucket)
                                       (mem_page store))]))
        as [Hq [Hu He]].
      { rewrite Hunder.
        pose proof (filter_length_bound
                      (kept (dObjects (deleteParams_of (JString bucket)
                                         (mem_page store))))
                      (skipn maxKeys (filter (under bucket dir) store))) as Hle.
        rewrite length_skipn in Hle. rewrite Hm in *. lia. }
      repeat split; [exact Hq|exact Hu|]. rewrite He. exact Helse.
    + unfold finished. cbn [quiescent final service].
      unfold mem_page_of in Htr. cbn [IsTruncated] in Htr.
      apply Nat.ltb_ge in Htr.
      repeat split; [|exact Helse].
      rewrite Hunder, skipn_all2 by exact Htr. reflexivity.
Qed.

End MemStore.

(** ** The further properties at concrete inputs *)

Lemma allowed_buffer : allowed_return_type (JString "buffer").
Proof. exists "buffer". split; [reflexivity|]. simpl. auto. Qed.

Lemma allowed_string : allowed_return_type (JString "string").
Proof. exists "string". split; [reflexivity|]. simpl. auto. Qed.

Lemma getObject_non_retryable_one_call_witness :
  let script := [inl (mkAwsError false "AccessDenied");
                 inr (response (JBuffer [x41]) [])] in
  retryable (mkAwsError false "AccessDenied") = false
  /\ @getObject toy_runtime _ scripted_get_client 5
       (JString "b") (JString "k") (JString "string") (JBool false)
       (mkWorld script [])
     = (mkWorld [inr (response (JBuffer [x41]) [])]
          [CallGet (mkGetParam (JString "b") (JString "k"))],
        Rejected (ClientError (mkAwsError false "AccessDenied"))).
Proof.
  intro script. split; [reflexivity|].
  exact (@getObject_non_retryable_one_call toy_runtime _ scripted_get_client 5
           (JString "b") (JString "k") (JString "string") (JBool false)
           (mkWorld script []) _ _ eq_refl eq_refl allowed_string eq_refl
           eq_refl eq_refl).
Defined.

Lemma getObject_no_body_one_call_witness :
  let data := [("ContentType", JString "binary/octet-stream");
               ("Body", JString "text")] in
  (truthy (get_prop data "Body") = false \/ isBuffer (get_prop data "Body") = false)
  /\ @getObject toy_runtime _ scripted_get_client 5
       (JString "b") (JString "k") (JString "string") (JBool false)
       (mkWorld [inr data] [])
     = (mkWorld [] [CallGet (mkGetParam (JString "b") (JString "k"))],
        Rejected (Error "FILE_NOT_FOUND")).
Proof.
  intro data. split; [right; reflexivity|].
  exact (@getObject_no_body_one_call toy_runtime _ scripted_get_client 5
           (JString "b") (JString "k") (JString "string") (JBool false)
           (mkWorld [inr data] []) _ data eq_refl eq_refl allowed_string eq_refl
           eq_refl (or_intror eq_refl)).
Defined.

Lemma getObject_buffer_body_formatted_witness :
  get_prop (response (JBuffer []) []) "Body" = JBuffer []
  /\ @getObject toy_runtime _ scripted_get_client 5
       (JString "b") (JString "empty") (JString "buffer") (JBool false)
       (mkWorld [inr (response (JBuffer []) [])] [])
     = (mkWorld [] [CallGet (mkGetParam (JString "b") (JString "empty"))],
        Resolved (JBuffer [])).
Proof.
  split; [reflexivity|].
  exact (proj2 (@getObject_buffer_body_formatted toy_runtime _
                  scripted_get_client 5
                  (JString "b") (JString "empty") (JString "buffer") (JBool false)
                  (mkWorld [inr (response (JBuffer []) [])] []) _ _ []
                  eq_refl eq_refl allowed_buffer eq_refl eq_refl eq_refl)).
Defined.

Lemma putJsonObject_answers_after_put_witness :
  let run := @putJsonObject toy_runtime _ scripted_put_client 5
               (JString "b") (JString "k") JNull
               (mkWorld [inl (mkAwsError true "SlowDown");
                         inl (mkAwsError false "AccessDenied")] []) in
  ((exists v, snd run = Resolved v)
   \/ (exists e, snd run = Rejected (ClientError e)))
  /\ (typeof (JString "b") = "string" /\ typeof (JString "k") = "string"
      /\ typeof JNull = "object")
  /\ exists rest,
       calls (fst run)
       = [] ++ CallPut (mkPutParam (JString "b") (JString "k") (JString "null")
                          "application/json") :: rest.
Proof.
  intro run.
  assert (H : (exists v, snd run = Resolved v)
              \/ (exists e, snd run = Rejected (ClientError e))).
  { right. eexists. reflexivity. }
  split; [exact H|].
  exact (@putJsonObject_answers_after_put toy_runtime _ scripted_put_client 5
           (JString "b") (JString "k") JNull
           (mkWorld [inl (mkAwsError true "SlowDown");
                     inl (mkAwsError false "AccessDenied")] []) H).
Defined.

Lemma putJsonObject_success_one_call_witness :
  cli_putObject scripted_put_client
    (mkPutParam (JString "b") (JString "k") (JString "[]") "application/json")
    [inr (JObject [("ETag", JString "e1")])]
  = ([], inr (JObject [("ETag", JString "e1")]))
  /\ @putJsonObject toy_runtime _ scripted_put_client 5
       (JString "b") (JString "k") (JArray [])
       (mkWorld [inr (JObject [("ETag", JString "e1")])] [])
     = (mkWorld []
          [CallPut (mkPutParam (JString "b") (JString "k") (JString "[]")
                      "application/json")],
        Resolved (JObject [("ETag", JString "e1")])).
Proof.
  split; [reflexivity|].
  exact (@putJsonObject_success_one_call toy_runtime _ scripted_put_client 5
           (JString "b") (JString "k") (JArray [])
           (mkWorld [inr (JObject [("ETag", JString "e1")])] []) _ _
           eq_refl eq_refl eq_refl eq_refl).
Defined.

Lemma putJsonObject_non_retryable_one_call_witness :
  retryable (mkAwsError false "AccessDenied") = false
  /\ @putJsonObject toy_runtime _ scripted_put_client 5
       (JString "b") (JString "k") (JArray [])
       (mkWorld [inl (mkAwsError false "AccessDenied"); inr (JObject [])] [])
     = (mkWorld [inr (JObject [])]
          [CallPut (mkPutParam (JString "b") (JString "k") (JString "[]")
                      "application/json")],
        Rejected (ClientError (mkAwsError false "AccessDenied"))).
Proof.
  split; [reflexivity|].
  exact (@putJsonObject_non_retryable_one_call toy_runtime _ scripted_put_client 5
           (JString "b") (JString "k") (JArray [])
           (mkWorld [inl (mkAwsError false "AccessDenied"); inr (JObject [])] [])
           _ _ eq_refl eq_refl eq_refl eq_refl eq_refl).
Defined.

Lemma put_then_get_roundtrip_witness :
  @JSON_parse toy_runtime
    (@Buffer_toString toy_runtime
       (@Buffer_from toy_runtime (@JSON_stringify toy_runtime (JArray []))))
  = Some (JArray [])
  /\ let stored := @putJsonObject toy_runtime _ (mem_client 2) 5
                     (JString "b") (JString "k") (JArray []) (mkWorld [] []) in
     let fetched := @getObject toy_runtime _ (mem_client 2) 5
                      (JString "b") (JString "k") JUndefined JUndefined
                      (fst stored) in
     snd stored = Resolved (JObject [])
     /\ snd fetched = Resolved (JArray [])
     /\ calls (fst fetched)
        = [] ++ [CallPut (mkPutParam (JString "b") (JString "k") (JString "[]")
                            "application/json");
                 CallGet (mkGetParam (JString "b") (JString "k"))].
Proof.
  split; [reflexivity|].
  exact (@put_then_get_roundtrip toy_runtime _ (mem_client 2) 5
           (JString "b") (JString "k") (JArray []) (mkWorld [] [])
           _ _ _ [] eq_refl eq_refl eq_refl eq_refl eq_refl eq_refl).
Defined.

Lemma format_other_return_type_envelope_witness :
  JNum 1 <> JString "buffer" /\ JNum 1 <> JString "string"
  /\ JNum 1 <> JString "object"
  /\ @_formatGetObjectResponse toy_runtime
       [("ContentType", JString "text/plain")] (JNum 1) (JBool true)
     = Resolved (JObject [("ContentType", JString "text/plain")]).
Proof.
  assert (H1 : JNum 1 <> JString "buffer") by discriminate.
  assert (H2 : JNum 1 <> JString "string") by discriminate.
  assert (H3 : JNum 1 <> JString "object") by discriminate.
  split; [exact H1|]. split; [exact H2|]. split; [exact H3|].
  exact (@format_other_return_type_envelope toy_runtime
           [("ContentType", JString "text/plain")] (JNum 1) (JBool true)
           H1 H2 H3).
Defined.

Lemma format_gzip_is_format_of_inflated_witness :
  @gunzip toy_runtime (toy_compress (list_byte_of_string "[]"))
  = Some (list_byte_of_string "[]")
  /\ @_formatGetObjectResponse toy_runtime
       (response (JBuffer (toy_compress (list_byte_of_string "[]"))) [])
       (JString "object") (JBool true)
     = @_formatGetObjectResponse toy_runtime
         (response (JBuffer (list_byte_of_string "[]")) [])
         (JString "object") (JBool false).
Proof.
  split; [reflexivity|].
  apply (@format_gzip_is_format_of_inflated toy_runtime); [reflexivity|].
  right. right. split; [reflexivity|]. cbn. discriminate.
Defined.

Lemma format_gunzip_refused_witness :
  @gunzip toy_runtime [x00; x01] = None
  /\ @_formatGetObjectResponse toy_runtime (response (JBuffer [x00; x01]) [])
       (JString "string") (JBool true)
     = Rejected ZlibError.
Proof.
  split; [reflexivity|].
  apply (proj1 (@format_gunzip_refused toy_runtime [x00; x01] [] eq_refl)).
  simpl. auto.
Defined.

Lemma emptyS3Directory_empty_page_witness :
  cli_listObjectsV2 (mem_client 2)
    (mkListParam (JString "b") (JString "none/")) five_logs
  = (five_logs, inr (mkListOutput [] false))
  /\ emptyS3Directory (mem_client 2) 1 (JString "b") (JString "none/")
       (mkWorld five_logs [])
     = mkEmptyRun (Resolved JUndefined)
         (mkWorld five_logs
            ([] ++ [CallList (mkListParam (JString "b") (JString "none/"))]))
         true 0.
Proof.
  split; [reflexivity|].
  exact (emptyS3Directory_empty_page (mem_client 2) (JString "b")
           (JString "none/") 0 (mkWorld five_logs []) _ _ eq_refl eq_refl).
Defined.

Lemma emptyS3Directory_failure_stops_witness :
  (cli_listObjectsV2 (mem_client 2) (mkListParam (JNum 1) (JString "logs/"))
     five_logs
   = (five_logs, inl (mkAwsError false "InvalidParameterType"))
   /\ settled (emptyS3Directory (mem_client 2) 3 (JNum 1) (JString "logs/")
                 (mkWorld five_logs []))
      = Rejected (ClientError (mkAwsError false "InvalidParameterType")))
  /\ (cli_deleteObjects read_only_client
        (deleteParams_of (JString "b") (mkListOutput [mkContent "k" 1] true)) tt
      = (tt, inl (mkAwsError false "AccessDenied"))
      /\ emptyS3Directory read_only_client 3 (JString "b") (JString "logs/")
           (mkWorld tt [])
         = mkEmptyRun (Rejected (ClientError (mkAwsError false "AccessDenied")))
             (mkWorld tt
                (([] ++ [CallList (mkListParam (JString "b") (JString "logs/"))])
                   ++ [CallDelete (mkDeleteParam (JString "b")
                                     [mkObjectIdentifier "k"])]))
             true 0).
Proof.
  split; (split; [reflexivity|]).
  - rewrite (proj1 (emptyS3Directory_failure_stops (mem_client 2) (JNum 1)
                      (JString "logs/") 2 (mkWorld five_logs []))
               _ _ eq_refl).
    reflexivity.
  - apply (proj2 (emptyS3Directory_failure_stops read_only_client (JString "b")
                    (JString "logs/") 2 (mkWorld tt []))
             tt tt (mkListOutput [mkContent "k" 1] true)).
    + reflexivity.
    + discriminate.
    + reflexivity.
Defined.

Lemma emptyS3Directory_single_page_witness :
  let page := mkListOutput [mkContent "k" 0] false in
  cli_listObjectsV2 countdown_client
    (mkListParam (JString "b") (JString "logs/")) 1 = (1, inr page)
  /\ Contents page <> []
  /\ settled (emptyS3Directory countdown_client 1 (JString "b") (JString "logs/")
                (mkWorld 1 []))
     = Resolved JUndefined.
Proof.
  intro page.
  assert (Hne : Contents page <> []) by discriminate.
  split; [reflexivity|]. split; [exact Hne|].
  exact (proj1 (emptyS3Directory_single_page countdown_client (JString "b")
                  (JString "logs/") 0 (mkWorld 1 []) 1 0 page (JObject [])
                  eq_refl Hne eq_refl eq_refl)).
Defined.

Lemma emptyS3Directory_truncated_lists_again_witness :
  let page := mem_page_of 2 "b" "logs/" five_logs in
  IsTruncated page = true
  /\ Contents page <> []
  /\ settled (emptyS3Directory (mem_client 2) 2 (JString "b") (JString "logs/")
                (mkWorld five_logs []))
     = Rejected (TypeError BIND_NOT_A_FUNCTION).
Proof.
  intro page.
  assert (Hne : Contents page <> []) by discriminate.
  split; [reflexivity|]. split; [exact Hne|].
  exact (proj1 (emptyS3Directory_truncated_lists_again (mem_client 2)
                  (JString "b") (JString "logs/") 0 (mkWorld five_logs [])
                  five_logs _ page (JObject [])
                  eq_refl Hne eq_refl eq_refl)).
Defined.

Lemma emptyS3Directory_empties_store_witness :
  1 <= 2
  /\ length (filter (under "b" "logs/") five_logs) < 6
  /\ let run := emptyS3Directory (mem_client 2) 6 (JString "b") (JString "logs/")
                  (mkWorld five_logs []) in
     quiescent run = true
     /\ filter (under "b" "logs/") (service (final run)) = []
     /\ filter (elsewhere "b" "logs/") (service (final run))
        = filter (elsewhere "b" "logs/") five_logs.
Proof.
  assert (H1 : 1 <= 2) by lia.
  assert (H2 : length (filter (under "b" "logs/") five_logs) < 6)
    by (vm_compute; lia).
  split; [exact H1|]. split; [exact H2|].
  exact (emptyS3Directory_empties_store 2 "b" "logs/" H1 6 five_logs [] H2).
Defined.
